(** * PassPilot: the request handlers of [engine/app.py]

    A shallow embedding of the Flask application module: the values that
    [request.get_json()] hands to a handler, the Python operations the
    handlers apply to them, the process-wide [exam_analyzer] object, and the
    handlers themselves written in a small state-and-exception monad.  The
    analyzer class lives in [exam_analyzer.py]; the handlers see it through
    its methods only, which is how it appears here (class [ExamAnalyzer]). *)

From Stdlib Require Import Ascii String ZArith Floats QArith Lqa Permutation Sorted.
From stdpp Require Import gmap strings list fin_maps.

Set Warnings "-register-all".
Local Open Scope string_scope.
Local Open Scope Z_scope.

(** ** Python values *)

Module Py.

(** What [json.loads] produces: [None], [bool], [int], [float], [str],
    [list] and [dict] (string keys). *)
Inductive json : Type :=
| JNull
| JBool (b : bool)
| JInt (z : Z)
| JFloat (f : float)
| JStr (s : string)
| JList (l : list json)
| JObj (m : gmap string json).

(** Exceptions (instances of [Exception]) are a class and the message
    [str(e)] shows. *)
Inductive exn_class : Type :=
| TypeError | ValueError | AttributeError | OverflowError | FileNotFoundError
| OtherError (name : string).

(** The two ways [request.get_json()] aborts a request. *)
Inductive http_abort : Type := BadRequest | UnsupportedMediaType.

Inductive exn : Type :=
| Exn (cls : exn_class) (msg : string)
| HTTPException (a : http_abort).

Inductive outcome (X : Type) : Type :=
| Ret (x : X)
| Raise (e : exn).
Arguments Ret {X} x.
Arguments Raise {X} e.

Definition type_name (v : json) : string :=
  match v with
  | JNull => "NoneType" | JBool _ => "bool" | JInt _ => "int"
  | JFloat _ => "float" | JStr _ => "str" | JList _ => "list" | JObj _ => "dict"
  end.

(** [bool(v)], the test behind [not v] and [if v]. *)
Definition truthy (v : json) : bool :=
  match v with
  | JNull => false
  | JBool b => b
  | JInt z => negb (Z.eqb z 0)
  | JFloat f => negb (PrimFloat.eqb f 0%float)
  | JStr s => negb (String.eqb s "")
  | JList l => negb (Nat.eqb (length l) 0)
  | JObj m => negb (Nat.eqb (size m) 0)
  end.

Definition no_attribute {X} (v : json) (attr : string) : outcome X :=
  Raise (Exn AttributeError
           ("'" ++ type_name v ++ "' object has no attribute '" ++ attr ++ "'")).

(** [v.get(k, dflt)]: only a dict has the method. *)
Definition py_get (v : json) (k : string) (dflt : json) : outcome json :=
  match v with
  | JObj m => Ret (default dflt (m !! k))
  | _ => no_attribute v "get"
  end.

(** Iteration of a [for] loop over [v]: a list gives its items, a dict its
    keys, a str its characters; the other values are not iterable. *)
Definition py_iter (v : json) : outcome (list json) :=
  match v with
  | JList l => Ret l
  | JObj m => Ret (JStr <$> (map_to_list m).*1)
  | JStr s => Ret ((λ c, JStr (String c "")) <$> String.list_ascii_of_string s)
  | _ => Raise (Exn TypeError ("'" ++ type_name v ++ "' object is not iterable"))
  end.

(** *** Numbers

    [int] is unbounded, [float] is binary64, [bool] is a subclass of [int]. *)
Inductive number : Type :=
| NInt (z : Z)
| NFloat (f : float).

Definition as_number (v : json) : option number :=
  match v with
  | JBool b => Some (NInt (Z.b2z b))
  | JInt z => Some (NInt z)
  | JFloat f => Some (NFloat f)
  | _ => None
  end.

Definition of_number (n : number) : json :=
  match n with NInt z => JInt z | NFloat f => JFloat f end.

(** [float(z)]: round to nearest even, [OverflowError] past the largest
    finite double. *)
Definition float_of_int (z : Z) : outcome float :=
  match binary_normalize prec emax z 0 false with
  | S754_infinity _ => Raise (Exn OverflowError "int too large to convert to float")
  | sf => Ret (SF2Prim sf)
  end.

(** [a - b]. *)
Definition py_sub (a b : json) : outcome number :=
  match as_number a, as_number b with
  | Some (NInt x), Some (NInt y) => Ret (NInt (x - y))
  | Some (NFloat x), Some (NFloat y) => Ret (NFloat (x - y)%float)
  | Some (NInt x), Some (NFloat y) =>
      match float_of_int x with
      | Ret fx => Ret (NFloat (fx - y)%float)
      | Raise e => Raise e
      end
  | Some (NFloat x), Some (NInt y) =>
      match float_of_int y with
      | Ret fy => Ret (NFloat (x - fy)%float)
      | Raise e => Raise e
      end
  | _, _ => Raise (Exn TypeError
              ("unsupported operand type(s) for -: '" ++ type_name a
                 ++ "' and '" ++ type_name b ++ "'"))
  end.

(** The exact order between an [int] and a [float]: [Some c] is the
    comparison of [z] with the real value of [f], [None] when [f] is a NaN. *)
Definition compare_int_float (z : Z) (f : float) : option comparison :=
  match Prim2SF f with
  | S754_nan => None
  | S754_infinity s => Some (if s then Gt else Lt)
  | S754_zero _ => Some (z ?= 0)
  | S754_finite s m e =>
      let v := if s then Z.neg m else Z.pos m in
      Some (if 0 <=? e then z ?= v * 2 ^ e else z * 2 ^ (- e) ?= v)
  end.

(** [n > v] for a number [n]. *)
Definition num_gt (n : number) (v : json) : outcome bool :=
  match n, as_number v with
  | NInt x, Some (NInt y) => Ret (y <? x)
  | NFloat x, Some (NFloat y) => Ret (PrimFloat.ltb y x)
  | NInt x, Some (NFloat y) =>
      Ret (match compare_int_float x y with Some Gt => true | _ => false end)
  | NFloat x, Some (NInt y) =>
      Ret (match compare_int_float y x with Some Lt => true | _ => false end)
  | _, None => Raise (Exn TypeError
                 ("'>' not supported between instances of '"
                    ++ type_name (of_number n) ++ "' and '" ++ type_name v ++ "'"))
  end.

(** [max(a, b)] for a number [b]: [b] replaces [a] only if [b > a]. *)
Definition py_max (a : json) (b : number) : outcome json :=
  match num_gt b a with
  | Ret gt => Ret (if gt then of_number b else a)
  | Raise e => Raise e
  end.

(** The built-ins whose result depends on the Unicode tables: [s.strip()],
    [s.upper()] and [int(s)] on a str. *)
Class Builtins : Type := {
  str_strip : string → string;
  str_upper : string → string;
  py_int : string → outcome Z
}.

End Py.
Export Py.

(** ** The Flask side: requests and responses *)

Module Flask.

(** A request as a view function reads it: [request.args] (a multi-dict, in
    the order of the query string) and what [request.get_json()] does, which
    is to return the parsed body or to abort the request. *)
Record request : Type := Request {
  args : list (string * string);
  get_json : outcome json
}.

(** A response: the status code and, when the body is JSON, its value. *)
Record response : Type := Response {
  status : Z;
  body : option json
}.

(** [request.args.get(k)]: the first value given for [k], or [None]. *)
Fixpoint args_get (l : list (string * string)) (k : string) : option string :=
  match l with
  | [] => None
  | (k', v) :: l' => if String.eqb k' k then Some v else args_get l' k
  end.

Definition jsonify (v : json) : response := Response 200 (Some v).

(** [return jsonify({'error': msg}), code]. *)
Definition error_response (msg : string) (code : Z) : response :=
  Response code (Some (JObj {[ "error" := JStr msg ]})).

Definition abort_code (a : http_abort) : Z :=
  match a with BadRequest => 400 | UnsupportedMediaType => 415 end.

(** [internal_error], registered with [@app.errorhandler(500)]. *)
Definition internal_error : response :=
  Response 500 (Some (JObj (list_to_map
    [("error", JStr "Internal server error");
     ("message", JStr "An unexpected error occurred.")]))).

End Flask.
Export Flask.

(** ** The analyzer object and the world of the process *)

(** The analyzer calls a handler can make, with their arguments. *)
Inductive call : Type :=
| CNew
| CLoad (folder : string)
| CBuild
| CSearch (query : string) (similarity_threshold top_k : json)
| CModuleDistribution (results : list json)
| CMarksDistribution (results : list json)
| CPassStrategy (studied_topics target_marks : json)
| CPassSimulation (studied_topics target_marks : json)
| CTopicAnalysis (min_frequency : Z)
| CStats.

Definition method_name (c : call) : string :=
  match c with
  | CNew => "__init__"
  | CLoad _ => "load_json_files"
  | CBuild => "build_embeddings"
  | CSearch _ _ _ => "semantic_search"
  | CModuleDistribution _ => "get_module_distribution"
  | CMarksDistribution _ => "get_marks_distribution"
  | CPassStrategy _ _ => "get_pass_strategy"
  | CPassSimulation _ _ => "run_pass_simulation"
  | CTopicAnalysis _ => "get_topic_analysis"
  | CStats => "get_stats"
  end.

(** The class of [exam_analyzer.py] as [app.py] uses it.  [A] is the state
    of one instance; a method returns or raises, and leaves the instance in
    a new state.  Results have the type the handlers use them at: a list
    where [len] is taken, a dict where an item is assigned. *)
Class ExamAnalyzer (A : Type) : Type := {
  new_analyzer : outcome A;
  is_fitted : A → bool;
  load_json_files : string → A → outcome unit * A;
  build_embeddings : A → outcome unit * A;
  semantic_search : string → json → json → A → outcome (list json) * A;
  get_module_distribution : list json → A → outcome json * A;
  get_marks_distribution : list json → A → outcome json * A;
  get_pass_strategy : json → json → A → outcome (gmap string json) * A;
  run_pass_simulation : json → json → A → outcome (gmap string json) * A;
  get_topic_analysis : Z → A → outcome (list json) * A;
  get_stats : A → outcome json * A
}.

(** What the module reads from outside the process: the [DATA_FOLDER]
    setting, [os.path.exists], and the result of opening and parsing
    [exams_info.json]. *)
Class Env : Type := {
  DATA_FOLDER : string;
  path_exists : string → bool;
  exams_info : outcome json
}.

Module App.
Section handlers.
Context {A : Type} {analyzer_class : ExamAnalyzer A} {builtins : Builtins} {env : Env}.

(** The global [exam_analyzer] ([None] until initialized), and the calls
    made on it so far. *)
Record world : Type := World {
  exam_analyzer : option A;
  calls : list call
}.

(** Computations that read and write the world and may raise. *)
Definition M (X : Type) : Type := world → outcome X * world.

Definition ret {X} (x : X) : M X := λ w, (Ret x, w).

Definition bind {X Y} (m : M X) (k : X → M Y) : M Y :=
  λ w, match m w with
       | (Ret x, w') => k x w'
       | (Raise e, w') => (Raise e, w')
       end.

Definition lift {X} (o : outcome X) : M X := λ w, (o, w).

(** [try: m except Exception as e: h e]. *)
Definition try_except {X} (m : M X) (h : exn → M X) : M X :=
  λ w, match m w with
       | (Ret x, w') => (Ret x, w')
       | (Raise e, w') => h e w'
       end.

Notation "'let*' x ':=' m 'in' k" := (bind m (λ x, k))
  (at level 10, x name, m at level 100, k at level 200).

(** A method call [exam_analyzer.method(...)]. *)
Definition invoke {X} (c : call) (method : A → outcome X * A) : M X :=
  λ w, match exam_analyzer w with
       | Some a =>
           let '(r, a') := method a in
           (r, World (Some a') (calls w ++ [c]))
       | None => (no_attribute JNull (method_name c), w)
       end.

(** [exam_analyzer = ExamAnalyzer()]. *)
Definition construct : M unit :=
  λ w, match new_analyzer with
       | Ret a => (Ret tt, World (Some a) (calls w ++ [CNew]))
       | Raise e => (Raise e, World (exam_analyzer w) (calls w ++ [CNew]))
       end.

(** [exam_analyzer and exam_analyzer.is_fitted], as a bool: [None] is falsy
    and an analyzer instance is truthy. *)
Definition is_ready (w : world) : bool :=
  match exam_analyzer w with
  | Some a => is_fitted a
  | None => false
  end.

Definition code_required : response :=
  let dq := String "034"%char "" in
  error_response ("Query parameter " ++ dq ++ "code" ++ dq ++ " is required.") 400.

Definition not_ready : response := error_response "Exam analyzer not ready." 503.

Definition initialize_exam_analyzer : M bool :=
  try_except
    (let* _ := construct in
     if negb (path_exists DATA_FOLDER) then ret false
     else
       let* _ := invoke (CLoad DATA_FOLDER) (load_json_files DATA_FOLDER) in
       let* _ := invoke CBuild build_embeddings in
       ret true)
    (λ _, ret false).

Definition course_not_found (course_code : string) : response :=
  error_response ("Course with code '" ++ course_code ++ "' not found.") 404.

(** The dict returned for the course that matches. *)
Definition course_answer (course : gmap string json) : json :=
  JObj (list_to_map
    [("courseCode", default JNull (course !! "courseCode"));
     ("topics", default (JList []) (course !! "topics"))]).

(** The loop of [get_topics_for_course] over the courses of the file. *)
Fixpoint find_course (course_code : string) (courses : list json) : outcome response :=
  match courses with
  | [] => Ret (course_not_found course_code)
  | course :: rest =>
      match py_get course "courseCode" (JStr "") with
      | Ret (JStr c) =>
          if String.eqb (str_upper c) (str_upper course_code) then
            (* [course.get('courseCode')] and [course.get('topics', [])]:
               [course] is a dict here, its first [get] returned *)
            match course with
            | JObj fields => Ret (jsonify (course_answer fields))
            | _ => no_attribute course "get"
            end
          else find_course course_code rest
      | Ret v => no_attribute v "upper"
      | Raise e => Raise e
      end
  end.

(** The code of an entry of the table: the entry is an object and what
    [course.get('courseCode', '')] gives is a str. *)
Definition entry_code (entry : json) : option string :=
  match entry with
  | JObj course =>
      match default (JStr "") (course !! "courseCode") with
      | JStr c => Some c
      | _ => None
      end
  | _ => None
  end.

(** An entry with a code that differs from [course_code] even when both are
    upper-cased. *)
Definition other_course (course_code : string) (entry : json) : Prop :=
  ∃ c, entry_code entry = Some c ∧ str_upper c ≠ str_upper course_code.

Definition get_topics_for_course (req : request) : M response :=
  match args_get (args req) "code" with
  | None => ret code_required
  | Some course_code =>
      if String.eqb course_code "" then
        ret code_required
      else
        try_except
          (let* data := lift exams_info in
           let* courses := lift (py_get data "courses" (JList [])) in
           let* items := lift (py_iter courses) in
           lift (find_course course_code items))
          (λ e, match e with
                | Exn FileNotFoundError _ =>
                    ret (error_response "Server configuration file not found." 500)
                | Exn _ msg =>
                    ret (Response 500 (Some (JObj (list_to_map
                      [("error", JStr "Internal server error"); ("details", JStr msg)]))))
                | HTTPException _ =>
                    ret (Response 500 (Some (JObj (list_to_map
                      [("error", JStr "Internal server error"); ("details", JStr "")]))))
                end)
  end.

(** *** The exam analyzer endpoints *)

(** The dict [semantic_query] returns. *)
Definition query_body (query : string) (results : list json) (md mk : json) : json :=
  JObj (list_to_map
    [("query", JStr query);
     ("total_matches", JInt (Z.of_nat (length results)));
     ("results", JList results);
     ("module_distribution", md);
     ("marks_distribution", mk)]).

Definition semantic_query (req : request) : M response :=
  λ w,
  if negb (is_ready w) then ret not_ready w
  else
    (let* data := lift (get_json req) in
     let* q := if truthy data then lift (py_get data "query" JNull) else ret JNull in
     if negb (truthy q) then ret (error_response "Missing required field: query" 400)
     else
       let* query := lift (match q with
                           | JStr s => Ret (str_strip s)
                           | _ => no_attribute q "strip"
                           end) in
       if String.eqb query "" then ret (error_response "Query cannot be empty" 400)
       else
         let* similarity_threshold :=
           lift (py_get data "similarity_threshold" (JFloat 0.5)) in
         let* top_k := lift (py_get data "top_k" (JInt 20)) in
         let* results :=
           invoke (CSearch query similarity_threshold top_k)
                  (semantic_search query similarity_threshold top_k) in
         let* module_distribution :=
           invoke (CModuleDistribution results) (get_module_distribution results) in
         let* marks_distribution :=
           invoke (CMarksDistribution results) (get_marks_distribution results) in
         ret (jsonify (query_body query results module_distribution marks_distribution))) w.

(** The inputs both pass endpoints read from the payload. *)
Record pass_inputs : Type := PassInputs {
  studied_topics : json;
  internal_marks : json;
  target_external_marks : json
}.

(** Lines 211-212 and 233-234: [marks_needed_for_overall] and the target. *)
Definition target_marks (external_pass_threshold overall_pass_threshold internal : json)
  : outcome json :=
  match py_sub overall_pass_threshold internal with
  | Ret marks_needed_for_overall => py_max external_pass_threshold marks_needed_for_overall
  | Raise e => Raise e
  end.

(** Lines 206-212 and 228-234: the four reads and the target. *)
Definition read_pass_inputs (data : json) : outcome pass_inputs :=
  match py_get data "studied_topics" (JList []),
        py_get data "internal_marks" (JInt 0),
        py_get data "external_pass_threshold" (JInt 40),
        py_get data "overall_pass_threshold" (JInt 75) with
  | Ret studied, Ret internal, Ret external_pass_threshold, Ret overall_pass_threshold =>
      match target_marks external_pass_threshold overall_pass_threshold internal with
      | Ret target => Ret (PassInputs studied internal target)
      | Raise e => Raise e
      end
  | Raise e, _, _, _ | _, Raise e, _, _ | _, _, Raise e, _ | _, _, _, Raise e => Raise e
  end.

(** The value stored under ['inputs'], and the assignment itself. *)
Definition inputs_echo (i : pass_inputs) : json :=
  JObj (list_to_map
    [("internal_marks", internal_marks i);
     ("studied_topics", studied_topics i);
     ("calculated_target_marks", target_external_marks i)]).

Definition set_inputs (i : pass_inputs) (d : gmap string json) : gmap string json :=
  <["inputs" := inputs_echo i]> d.

Definition pass_strategy (req : request) : M response :=
  λ w,
  if negb (is_ready w) then ret not_ready w
  else
    (let* data := lift (get_json req) in
     if negb (truthy data) then ret (error_response "Invalid JSON payload" 400)
     else
       let* i := lift (read_pass_inputs data) in
       let* strategy :=
         invoke (CPassStrategy (studied_topics i) (target_external_marks i))
                (get_pass_strategy (studied_topics i) (target_external_marks i)) in
       ret (jsonify (JObj (set_inputs i strategy)))) w.

Definition pass_simulation (req : request) : M response :=
  λ w,
  if negb (is_ready w) then ret not_ready w
  else
    (let* data := lift (get_json req) in
     if negb (truthy data) then ret (error_response "Invalid JSON payload" 400)
     else
       let* i := lift (read_pass_inputs data) in
       let* simulation_results :=
         invoke (CPassSimulation (studied_topics i) (target_external_marks i))
                (run_pass_simulation (studied_topics i) (target_external_marks i)) in
       ret (jsonify (JObj (set_inputs i simulation_results)))) w.

Definition analyze_topics (req : request) : M response :=
  λ w,
  if negb (is_ready w) then ret not_ready w
  else
    (let* min_frequency :=
       lift (match args_get (args req) "min_frequency" with
             | Some s => py_int s
             | None => Ret 2
             end) in
     let* topic_list :=
       invoke (CTopicAnalysis min_frequency) (get_topic_analysis min_frequency) in
     ret (jsonify (JObj (list_to_map
       [("total_topics", JInt (Z.of_nat (length topic_list)));
        ("parameters", JObj {[ "min_frequency" := JInt min_frequency ]});
        ("topics", JList topic_list)])))) w.

Definition dataset_stats (req : request) : M response :=
  λ w,
  if negb (is_ready w) then ret not_ready w
  else
    (let* stats := invoke CStats get_stats in
     ret (jsonify stats)) w.

(** The calls a handler added to the log between [w] and [w']. *)
Definition new_calls (w w' : world) : list call :=
  drop (length (calls w)) (calls w').

(** *** Routing *)

Inductive endpoint : Type :=
| TopicsForCourse | Query | PassStrategy | PassSimulation | Topics | Stats.

Definition view (ep : endpoint) : request → M response :=
  match ep with
  | TopicsForCourse => get_topics_for_course
  | Query => semantic_query
  | PassStrategy => pass_strategy
  | PassSimulation => pass_simulation
  | Topics => analyze_topics
  | Stats => dataset_stats
  end.

(** The two pass endpoints, and the analyzer call each of them makes. *)
Definition is_pass (ep : endpoint) : bool :=
  match ep with PassStrategy | PassSimulation => true | _ => false end.

Definition pass_call (ep : endpoint) (studied target : json) : call :=
  match ep with
  | PassSimulation => CPassSimulation studied target
  | _ => CPassStrategy studied target
  end.

(** The analyzer method behind each pass endpoint. *)
Definition pass_method (ep : endpoint)
  : json → json → A → outcome (gmap string json) * A :=
  match ep with
  | PassSimulation => run_pass_simulation
  | _ => get_pass_strategy
  end.

(** The endpoints behind the readiness check. *)
Definition analytical (ep : endpoint) : bool :=
  match ep with TopicsForCourse => false | _ => true end.

(** What Flask does with a view: a returned response is sent; an aborted
    request gets the status of the abort; any other exception goes to the
    handler registered for 500. *)
Definition serve (ep : endpoint) (req : request) (w : world) : response * world :=
  match view ep req w with
  | (Ret r, w') => (r, w')
  | (Raise (HTTPException a), w') => (Response (abort_code a) None, w')
  | (Raise (Exn _ _), w') => (internal_error, w')
  end.

End handlers.

Arguments world A : clear implicits.
Arguments World {A} exam_analyzer calls.
Arguments M A X : clear implicits.

End App.

(** ** The document question-answering side and the error handlers *)

Module Rag.

(** The calls made on the RAG analyzer, with their arguments. *)
Inductive rag_call : Type :=
| RNew (pdf_folder persist_directory : string)
| RLoadOrCreate
| RAsk (query : string)
| RIndex.

(** The class of [rag_analyzer.py] as [app.py] uses it.  [qa_chain r] tells
    whether the attribute [qa_chain] of the instance is set (not [None]); a
    chain object is truthy. *)
Class RAGAnalyzer (R : Type) : Type := {
  new_rag_analyzer : string → string → outcome R;
  qa_chain : R → bool;
  load_or_create_vectorstore : R → outcome unit * R;
  ask : string → R → outcome json * R;
  index_documents : R → outcome unit * R
}.

(** The two folder settings, read once when the module is imported. *)
Class Config : Type := {
  PDF_FOLDER : string;
  CHROMA_PERSIST_DIR : string
}.

Section handlers.
Context {R : Type} {rag_class : RAGAnalyzer R} {builtins : Builtins} {config : Config}.

(** The global [rag_analyzer], the calls made on it so far, and
    [os.environ]. *)
Record rag_world : Type := RagWorld {
  rag_analyzer : option R;
  rag_calls : list rag_call;
  environ : gmap string string
}.

Definition M (X : Type) : Type := rag_world → outcome X * rag_world.

Definition ret {X} (x : X) : M X := λ w, (Ret x, w).

Definition bind {X Y} (m : M X) (k : X → M Y) : M Y :=
  λ w, match m w with
       | (Ret x, w') => k x w'
       | (Raise e, w') => (Raise e, w')
       end.

Definition lift {X} (o : outcome X) : M X := λ w, (o, w).

Definition try_except {X} (m : M X) (h : exn → M X) : M X :=
  λ w, match m w with
       | (Ret x, w') => (Ret x, w')
       | (Raise e, w') => h e w'
       end.

Notation "'let*' x ':=' m 'in' k" := (bind m (λ x, k))
  (at level 10, x name, m at level 100, k at level 200).

Definition rag_method_name (c : rag_call) : string :=
  match c with
  | RNew _ _ => "__init__"
  | RLoadOrCreate => "load_or_create_vectorstore"
  | RAsk _ => "ask"
  | RIndex => "index_documents"
  end.

(** A method call [rag_analyzer.method(...)]. *)
Definition invoke {X} (c : rag_call) (method : R → outcome X * R) : M X :=
  λ w, match rag_analyzer w with
       | Some r =>
           let '(o, r') := method r in
           (o, RagWorld (Some r') (rag_calls w ++ [c]) (environ w))
       | None => (no_attribute JNull (rag_method_name c), w)
       end.

(** [rag_analyzer = RAGAnalyzer(pdf_folder=PDF_FOLDER,
    persist_directory=CHROMA_PERSIST_DIR)]. *)
Definition construct : M unit :=
  λ w, let c := RNew PDF_FOLDER CHROMA_PERSIST_DIR in
       match new_rag_analyzer PDF_FOLDER CHROMA_PERSIST_DIR with
       | Ret r => (Ret tt, RagWorld (Some r) (rag_calls w ++ [c]) (environ w))
       | Raise e => (Raise e, RagWorld (rag_analyzer w) (rag_calls w ++ [c]) (environ w))
       end.

(** [os.environ[k] = v]. *)
Definition setenv (k v : string) : M unit :=
  λ w, (Ret tt, RagWorld (rag_analyzer w) (rag_calls w) (<[k := v]> (environ w))).

Definition initialize_rag_analyzer : M bool :=
  λ w,
  match environ w !! "GEMINI_API_KEY" with
  | None => ret false w
  | Some gemini_api_key =>
      if String.eqb gemini_api_key "" then ret false w
      else
        (let* _ := setenv "GOOGLE_API_KEY" gemini_api_key in
         try_except
           (let* _ := construct in
            let* _ := invoke RLoadOrCreate load_or_create_vectorstore in
            ret true)
           (λ _, ret false)) w
  end.

(** [rag_analyzer and rag_analyzer.qa_chain], as a bool. *)
Definition rag_ready (w : rag_world) : bool :=
  match rag_analyzer w with
  | Some r => qa_chain r
  | None => false
  end.

Definition ask_document (req : request) : M response :=
  λ w,
  if negb (rag_ready w) then
    ret (error_response "RAG system not ready. Check server startup logs." 503) w
  else
    (let* data := lift (get_json req) in
     let* q := if truthy data then lift (py_get data "query" JNull) else ret JNull in
     if negb (truthy q) then
       ret (error_response "Missing or empty required field: query" 400)
     else
       let* stripped := lift (match q with
                              | JStr s => Ret (str_strip s)
                              | _ => no_attribute q "strip"
                              end) in
       if String.eqb stripped "" then
         ret (error_response "Missing or empty required field: query" 400)
       else
         let* query := lift (match q with
                             | JStr s => Ret s
                             | _ => no_attribute q "strip"
                             end) in
         let* answer := invoke (RAsk query) (ask query) in
         ret (jsonify (JObj (list_to_map
                [("query", JStr query); ("answer", answer)])))) w.

Definition re_index_documents (req : request) : M response :=
  λ w,
  match rag_analyzer w with
  | None => ret (error_response "RAG system not initialized." 503) w
  | Some _ =>
      (let* _ := invoke RIndex index_documents in
       ret (jsonify (JObj (list_to_map
              [("status", JStr "success");
               ("message", JStr "Re-indexing process completed.")])))) w
  end.

Inductive rag_endpoint : Type := Ask | ReIndex.

Definition rag_view (ep : rag_endpoint) : request → M response :=
  match ep with
  | Ask => ask_document
  | ReIndex => re_index_documents
  end.

(** Flask around a view, as for the exam endpoints. *)
Definition rag_serve (ep : rag_endpoint) (req : request) (w : rag_world)
  : response * rag_world :=
  match rag_view ep req w with
  | (Ret r, w') => (r, w')
  | (Raise (HTTPException a), w') => (Response (abort_code a) None, w')
  | (Raise (Exn _ _), w') => (internal_error, w')
  end.

(** The calls a handler added to the log between [w] and [w']. *)
Definition new_rag_calls (w w' : rag_world) : list rag_call :=
  drop (length (rag_calls w)) (rag_calls w').

(** [health_check] reads both globals. *)
Definition health_check {A : Type} {analyzer_class : ExamAnalyzer A}
    (w : App.world A) (rw : rag_world) : response :=
  jsonify (JObj (list_to_map
    [("server_status", JStr "healthy");
     ("exam_analyzer_ready",
        JBool (match App.exam_analyzer w with
               | Some a => is_fitted a
               | None => false
               end));
     ("rag_analyzer_ready",
        JBool (match rag_analyzer rw with
               | Some r => qa_chain r
               | None => false
               end))])).

End handlers.

Arguments rag_world R : clear implicits.
Arguments RagWorld {R} rag_analyzer rag_calls environ.

End Rag.

(** ** The 404 handler *)

Module Errors.

(** A rule of [app.url_map]: its path and the name of its endpoint. *)
Record rule : Type := Rule {
  rule_path : string;
  rule_endpoint : string
}.

(** [sub in s]. *)
Definition contains (sub s : string) : bool :=
  match String.index 0 sub s with
  | Some _ => true
  | None => false
  end.

(** The order of [str]: by code point, a prefix first. *)
Definition str_le (x y : string) : Prop := String.leb x y = true.

(** [sorted] on strings: ascending in the order of [str]. *)
Fixpoint insert_sorted (x : string) (l : list string) : list string :=
  match l with
  | [] => [x]
  | y :: l' => if String.leb x y then x :: l else y :: insert_sorted x l'
  end.

Definition sorted (l : list string) : list string :=
  fold_right insert_sorted [] l.

(** [[rule.rule for rule in app.url_map.iter_rules()
      if 'static' not in rule.endpoint]]. *)
Definition available_endpoints (url_map : list rule) : list string :=
  rule_path <$> filter (λ r, contains "static" (rule_endpoint r) = false) url_map.

(** [not_found]: the list goes through [set], [list] and [sorted]. *)
Definition not_found (url_map : list rule) : response :=
  Response 404 (Some (JObj (list_to_map
    [("error", JStr "Endpoint not found");
     ("available_endpoints",
        JList (JStr <$> sorted (remove_dups (available_endpoints url_map))))]))).

(** The rules of the application: the static route Flask adds, and the nine
    routes of [app.py] in the order they are declared. *)
Definition app_url_map : list rule :=
  [ Rule "/static/<path:filename>" "static";
    Rule "/health" "health_check";
    Rule "/topics-for-course" "get_topics_for_course";
    Rule "/ask" "ask_document";
    Rule "/re-index" "re_index_documents";
    Rule "/query" "semantic_query";
    Rule "/pass-strategy" "pass_strategy";
    Rule "/pass-simulation" "pass_simulation";
    Rule "/topics" "analyze_topics";
    Rule "/stats" "dataset_stats" ].

End Errors.

(** ** The Strategy Planner *)

Module Planner.

(** Modelled from the spec: a Question of the corpus (section 3), as far as
    the Planner reads it; [exam_analyzer.py], which defines it, is not among
    the sources.  The topic label is nullable, the marks value a positive
    integer. *)
Record Question : Type := {
  module_id : string;
  topic_label : option string;
  marks : positive
}.

(** Modelled from the spec: a TopicRecord (section 3), the aggregate over the
    questions of one topic label; [exam_analyzer.py] is not among the
    sources.  The average is derived from the total and the count. *)
Record TopicRecord : Type := {
  topic : string;
  frequency : positive;
  total_marks : positive
}.

Definition average_marks (r : TopicRecord) : Q :=
  Zpos (total_marks r) # frequency r.

(** Modelled from the spec: grouping of the corpus by topic label (section
    4.3), in the order the labels first occur; the analyzer's own grouping
    is in [exam_analyzer.py], not among the sources. *)
Fixpoint add_question (t : string) (m : positive) (rs : list TopicRecord)
  : list TopicRecord :=
  match rs with
  | [] => [ {| topic := t; frequency := 1; total_marks := m |} ]
  | r :: rs' =>
      if String.eqb (topic r) t then
        {| topic := t; frequency := Pos.succ (frequency r);
           total_marks := (total_marks r + m)%positive |} :: rs'
      else r :: add_question t m rs'
  end.

Definition topic_records (corpus : list Question) : list TopicRecord :=
  fold_left (λ rs q, match topic_label q with
                     | Some t => add_question t (marks q) rs
                     | None => rs
                     end) corpus [].

Definition is_studied (studied : list string) (r : TopicRecord) : bool :=
  existsb (String.eqb (topic r)) studied.

(** Sum of the average marks of a list of records. *)
Definition sum_average (rs : list TopicRecord) : Q :=
  fold_right (λ r acc, average_marks r + acc)%Q 0%Q rs.

Section planner.
(** The weight that ranks the topics, which section 9 leaves open. *)
Variable weight : TopicRecord → Q.

(** Modelled from the spec: ranking by weight, heaviest first, equal weights
    in their earlier order (section 4.4); the analyzer's own ranking is in
    [exam_analyzer.py], not among the sources. *)
Fixpoint insert_ranked (r : TopicRecord) (rs : list TopicRecord) : list TopicRecord :=
  match rs with
  | [] => [r]
  | r' :: rs' =>
      if Qle_bool (weight r') (weight r) then r :: rs
      else r' :: insert_ranked r rs'
  end.

Definition rank (rs : list TopicRecord) : list TopicRecord :=
  fold_right insert_ranked [] rs.

(** Modelled from the spec: the greedy accumulation of section 4.4, which
    takes topics from the ranked list until the running total meets or
    exceeds the target or the list is exhausted; the analyzer's own loop is
    in [exam_analyzer.py], not among the sources. *)
Fixpoint accumulate (ranked : list TopicRecord) (target running : Q)
  : list TopicRecord * Q :=
  match ranked with
  | [] => ([], running)
  | r :: rest =>
      if Qle_bool target running then ([], running)
      else
        let '(chosen, total) := accumulate rest target (running + average_marks r)%Q in
        (r :: chosen, total)
  end.

(** Modelled from the spec: the StrategyResult of section 3. *)
Record StrategyResult : Type := {
  recommended : list string;
  projected_marks : Q;
  feasible : bool;
  margin : Q
}.

(** The topics the Planner chooses from. *)
Definition pool (corpus : list Question) (studied : list string) : list TopicRecord :=
  filter (λ r, is_studied studied r = false) (topic_records corpus).

(** Modelled from the spec: the Planner of section 4.4 (exclude the studied
    topics, rank, accumulate, report); [get_pass_strategy] itself is in
    [exam_analyzer.py], not among the sources. *)
Definition plan (corpus : list Question) (studied : list string) (target : Q)
  : StrategyResult :=
  let '(chosen, total) := accumulate (rank (pool corpus studied)) target 0%Q in
  {| recommended := topic <$> chosen;
     projected_marks := total;
     feasible := Qle_bool target total;
     margin := (total - target)%Q |}.

End planner.

(** The corpus of the scenarios of section 8. *)
Definition scenario_corpus : list Question :=
  [ {| module_id := "A"; topic_label := Some "Arrays"; marks := 10 |};
    {| module_id := "A"; topic_label := Some "Arrays"; marks := 10 |};
    {| module_id := "A"; topic_label := Some "Sorting"; marks := 5 |};
    {| module_id := "B"; topic_label := Some "Graphs"; marks := 15 |} ].

End Planner.

(** ** Instances for running the handlers *)

Module Ascii_text.

Definition is_space (c : ascii) : bool :=
  let n := N_of_ascii c in
  ((9 <=? n) && (n <=? 13) || (28 <=? n) && (n <=? 32))%N.

Fixpoint lstrip (s : string) : string :=
  match s with
  | String c s' => if is_space c then lstrip s' else s
  | EmptyString => EmptyString
  end.

Fixpoint rstrip (s : string) : string :=
  match s with
  | String c s' =>
      match rstrip s' with
      | EmptyString => if is_space c then EmptyString else String c EmptyString
      | t => String c t
      end
  | EmptyString => EmptyString
  end.

Definition strip (s : string) : string := rstrip (lstrip s).

Definition upper_char (c : ascii) : ascii :=
  let n := N_of_ascii c in
  if ((97 <=? n) && (n <=? 122))%N then ascii_of_N (n - 32) else c.

Fixpoint upper (s : string) : string :=
  match s with
  | String c s' => String (upper_char c) (upper s')
  | EmptyString => EmptyString
  end.

Definition digit_value (c : ascii) : option Z :=
  let n := N_of_ascii c in
  if ((48 <=? n) && (n <=? 57))%N then Some (Z.of_N (n - 48)) else None.

(** Decimal digits, single underscores allowed between two digits. *)
Fixpoint digits (s : string) (acc : Z) (after_digit : bool) : option Z :=
  match s with
  | EmptyString => if after_digit then Some acc else None
  | String c s' =>
      match digit_value c with
      | Some d => digits s' (10 * acc + d) true
      | None =>
          if Ascii.eqb c "_"%char && after_digit then digits s' acc false else None
      end
  end.

(** The whitespace [int] skips around an ASCII literal: tab to carriage
    return, and the space. *)
Definition is_int_space (c : ascii) : bool :=
  let n := N_of_ascii c in
  ((9 <=? n) && (n <=? 13) || (n =? 32))%N.

Fixpoint int_lstrip (s : string) : string :=
  match s with
  | String c s' => if is_int_space c then int_lstrip s' else s
  | EmptyString => EmptyString
  end.

Fixpoint int_rstrip (s : string) : string :=
  match s with
  | String c s' =>
      match int_rstrip s' with
      | EmptyString => if is_int_space c then EmptyString else String c EmptyString
      | t => String c t
      end
  | EmptyString => EmptyString
  end.

Fixpoint digit_count (s : string) : nat :=
  match s with
  | String c s' =>
      match digit_value c with
      | Some _ => S (digit_count s')
      | None => digit_count s'
      end
  | EmptyString => O
  end.

(** [sys.get_int_max_str_digits()], at its default. *)
Definition int_max_str_digits : nat := 4300.

Definition int_literal (s : string) : option Z :=
  if Nat.ltb int_max_str_digits (digit_count s) then None
  else
    match int_rstrip (int_lstrip s) with
    | String "-"%char s' => Z.opp <$> digits s' 0 false
    | String "+"%char s' => digits s' 0 false
    | s' => digits s' 0 false
    end.

(** [s.strip()], [s.upper()] and [int(s)] on text made of ASCII
    characters. *)
Definition builtins : Builtins := {|
  str_strip := strip;
  str_upper := upper;
  py_int s :=
    match int_literal s with
    | Some z => Ret z
    | None => Raise (Exn ValueError
                ("invalid literal for int() with base 10: '" ++ s ++ "'"))
    end
|}.

End Ascii_text.

Module Sample.

(** An analyzer to run the handlers against: it holds a list of question
    records, becomes fitted when its index is built, and answers a search
    with the first [top_k] of them. *)
Record analyzer : Type := Analyzer {
  fitted : bool;
  questions : list json
}.

Definition search (top_k : json) (a : analyzer) : outcome (list json) * analyzer :=
  match top_k with
  | JInt k => (Ret (take (Z.to_nat k) (questions a)), a)
  | _ => (Raise (Exn TypeError "slice indices must be integers"), a)
  end.

Definition exam_analyzer_class : ExamAnalyzer analyzer := {|
  new_analyzer := Ret (Analyzer false []);
  is_fitted := fitted;
  load_json_files _ a :=
    (Ret tt, Analyzer (fitted a) [JObj {[ "question" := JStr "What is a heap?" ]}]);
  build_embeddings a := (Ret tt, Analyzer true (questions a));
  semantic_search _ _ top_k a := search top_k a;
  get_module_distribution _ a := (Ret (JObj ∅), a);
  get_marks_distribution _ a := (Ret (JObj ∅), a);
  get_pass_strategy _ _ a := (Ret {[ "recommended_topics" := JList [] ]}, a);
  run_pass_simulation _ _ a := (Ret {[ "pass_probability" := JInt 1 ]}, a);
  get_topic_analysis _ a := (Ret [], a);
  get_stats a := (Ret (JObj {[ "total_questions" := JInt (Z.of_nat (length (questions a))) ]}), a)
|}.

(** A course table as [exams_info.json] holds it. *)
Definition course_table : json :=
  JObj {[ "courses" := JList
    [ JObj (list_to_map [("courseCode", JStr "CST204");
                         ("topics", JList [JStr "Normalization"])]);
      JObj (list_to_map [("courseCode", JStr "CST206");
                         ("topics", JList [JStr "Scheduling"; JStr "Paging"])]);
      JObj (list_to_map [("courseCode", JStr "cst206")]) ] ]}.

Definition env (data_folder_exists : bool) (table : outcome json) : Env := {|
  DATA_FOLDER := "./exam_data";
  path_exists _ := data_folder_exists;
  exams_info := table
|}.

Definition env_ok : Env := env true (Ret course_table).

(** The process before initialization and after a successful one. *)
Definition fresh_world : App.world analyzer := App.World None [].

Definition ready_world : App.world analyzer :=
  App.World (Some (Analyzer true [JStr "Q1"; JStr "Q2"; JStr "Q3"])) [].

(** The file is missing. *)
Definition env_no_table : Env :=
  env true (Raise (Exn FileNotFoundError "[Errno 2] No such file or directory")).

Definition post (payload : list (string * json)) : request :=
  Request [] (Ret (JObj (list_to_map payload))).

Definition get (query_string : list (string * string)) : request :=
  Request query_string (Raise (HTTPException UnsupportedMediaType)).

End Sample.

Module Sample_rag.

(** A RAG analyzer to run the handlers against: it counts the documents it
    has indexed and answers with a fixed text. *)
Record analyzer : Type := Analyzer {
  chain : bool;
  indexed : nat
}.

Definition rag_class : Rag.RAGAnalyzer analyzer := {|
  Rag.new_rag_analyzer _ _ := Ret (Analyzer false 0);
  Rag.qa_chain := chain;
  Rag.load_or_create_vectorstore a := (Ret tt, Analyzer true (indexed a));
  Rag.ask _ a := (Ret (JStr "See chapter 3."), a);
  Rag.index_documents a := (Ret tt, Analyzer (chain a) (S (indexed a)))
|}.

Definition config : Rag.Config := {|
  Rag.PDF_FOLDER := "./pdf_files";
  Rag.CHROMA_PERSIST_DIR := "./chroma_db"
|}.

Definition fresh_world : Rag.rag_world analyzer := Rag.RagWorld None [] ∅.


Definition ready_world : Rag.rag_world analyzer :=
  Rag.RagWorld (Some (Analyzer true 2)) [] {[ "GEMINI_API_KEY" := "k-123" ]}.

(** Constructed, but the chain was never set up. *)
Definition chainless_world : Rag.rag_world analyzer :=
  Rag.RagWorld (Some (Analyzer false 0)) [] ∅.

End Sample_rag.

(** * Properties of the handlers *)

Import App.

Section handler_facts.
Context {A : Type} {analyzer_class : ExamAnalyzer A} {builtins : Builtins} {env : Env}.
Implicit Types (w : world A) (req : request) (ep : endpoint).

(** ** Readiness *)

Lemma is_ready_false w :
  is_ready w = false ↔
  exam_analyzer w = None ∨ ∃ a, exam_analyzer w = Some a ∧ is_fitted a = false.
Proof.
  unfold is_ready. destruct (exam_analyzer w) as [a|]; split; eauto.
  - intros [?|(a' & ? & ?)]; congruence.
Qed.

Lemma new_calls_same w : new_calls w w = [].
Proof. unfold new_calls. by rewrite drop_all. Qed.

Lemma new_calls_app (o : option A) w l :
  new_calls w (World o (calls w ++ l)) = l.
Proof. unfold new_calls. simpl. by rewrite drop_app_length. Qed.

(** C1. A request to /query, /pass-strategy, /pass-simulation, /topics or
    /stats that arrives while the global analyzer is [None] or has
    [is_fitted] false is answered 503 at once: the world after the request
    is the world before it, so nothing was called on the analyzer and no
    state changed. *)
Theorem not_ready_fails_fast ep req w :
  analytical ep = true →
  (exam_analyzer w = None ∨ ∃ a, exam_analyzer w = Some a ∧ is_fitted a = false) →
  serve ep req w = (not_ready, w) ∧
  status (serve ep req w).1 = 503 ∧
  new_calls w (serve ep req w).2 = [] ∧
  exam_analyzer (serve ep req w).2 = exam_analyzer w.
Proof.
  intros Hep Hw. apply is_ready_false in Hw.
  assert (serve ep req w = (not_ready, w)) as ->.
  { destruct ep; try discriminate Hep; unfold serve; simpl;
      unfold semantic_query, pass_strategy, pass_simulation, analyze_topics,
        dataset_stats; by rewrite Hw. }
  simpl. by rewrite new_calls_same.
Qed.

(** ** /query *)

Lemma truthy_obj (d : gmap string json) k v :
  d !! k = Some v → truthy (JObj d) = true.
Proof.
  intros Hk. simpl. destruct (size d) eqn:Hsz; [|done].
  apply map_size_empty_iff in Hsz. subst d. by rewrite lookup_empty in Hk.
Qed.

Lemma truthy_str s : truthy (JStr s) = true ↔ s ≠ "".
Proof.
  simpl. rewrite negb_true_iff. apply String.eqb_neq.
Qed.

(** With a ready analyzer and a query that is not empty after stripping,
    the first call is the search, with the values read from the payload. *)
Lemma query_first_call req w d s :
  is_ready w = true →
  get_json req = Ret (JObj d) →
  d !! "query" = Some (JStr s) → s ≠ "" → str_strip s ≠ "" →
  ∃ rest,
    new_calls w (serve Query req w).2 =
      CSearch (str_strip s)
              (default (JFloat 0.5) (d !! "similarity_threshold"))
              (default (JInt 20) (d !! "top_k")) :: rest.
Proof.
  intros Hr Hj Hq Hs Hstrip. unfold is_ready in Hr.
  destruct (exam_analyzer w) as [a|] eqn:Ha; [|done].
  unfold serve, view, semantic_query, is_ready. rewrite Ha, Hr. simpl.
  unfold bind, lift, ret, invoke. rewrite Hj, (truthy_obj _ _ _ Hq). simpl.
  rewrite Hq. simpl. apply truthy_str in Hs. simpl in Hs. rewrite Hs. simpl.
  apply String.eqb_neq in Hstrip. rewrite Hstrip. simpl. rewrite Ha.
  destruct (semantic_search _ _ _ a) as [[rs|[c m|ab]] a1]; simpl;
    try (eexists; by rewrite new_calls_app).
  destruct (get_module_distribution rs a1) as [[md|[c m|ab]] a2]; simpl;
    try (eexists; rewrite <- app_assoc; by rewrite new_calls_app).
  destruct (get_marks_distribution rs a2) as [[mk|[c m|ab]] a3]; simpl;
    eexists; rewrite <- !app_assoc; by rewrite new_calls_app.
Qed.

(** The run of /query when the three analyzer calls return. *)
Lemma query_run req w a d s rs md mk a1 a2 a3 :
  exam_analyzer w = Some a → is_fitted a = true →
  get_json req = Ret (JObj d) →
  d !! "query" = Some (JStr s) → s ≠ "" → str_strip s ≠ "" →
  let thr := default (JFloat 0.5) (d !! "similarity_threshold") in
  let k := default (JInt 20) (d !! "top_k") in
  semantic_search (str_strip s) thr k a = (Ret rs, a1) →
  get_module_distribution rs a1 = (Ret md, a2) →
  get_marks_distribution rs a2 = (Ret mk, a3) →
  serve Query req w =
    (jsonify (query_body (str_strip s) rs md mk),
     World (Some a3)
       (calls w ++ [CSearch (str_strip s) thr k;
                    CModuleDistribution rs; CMarksDistribution rs])).
Proof.
  intros Ha Hr Hj Hq Hs Hstrip thr k H1 H2 H3.
  unfold serve, view, semantic_query, is_ready. rewrite Ha, Hr. simpl.
  unfold bind, lift, ret, invoke. rewrite Hj, (truthy_obj _ _ _ Hq). simpl.
  rewrite Hq. simpl. apply truthy_str in Hs. simpl in Hs. rewrite Hs. simpl.
  apply String.eqb_neq in Hstrip. rewrite Hstrip. simpl. rewrite Ha.
  fold thr k. rewrite H1. simpl. rewrite H2. simpl. rewrite H3. simpl.
  by rewrite <- !app_assoc.
Qed.

(** Every answer of /query with status 200 has the shape of [query_body]. *)
Lemma query_ok_body req w :
  status (serve Query req w).1 = 200 →
  ∃ query rs md mk, (serve Query req w).1 = jsonify (query_body query rs md mk).
Proof.
  unfold serve, view, semantic_query, bind, lift, ret, invoke.
  repeat case_match; simplify_eq/=; try done;
    try (by match goal with ab : http_abort |- _ => destruct ab end).
  intros _. by do 4 eexists.
Qed.

(** C8. A /query answer with status 200 carries [total_matches] equal to the
    number of entries of [results]; and a search that returns no question
    gives status 200 with an empty [results] and [total_matches] 0 (the
    distribution calls returning on the empty list). *)
Theorem total_matches_is_length req w :
  (status (serve Query req w).1 = 200 →
   ∃ d rs, body (serve Query req w).1 = Some (JObj d) ∧
           d !! "results" = Some (JList rs) ∧
           d !! "total_matches" = Some (JInt (Z.of_nat (length rs)))) ∧
  (∀ a d s md mk a1 a2 a3,
     exam_analyzer w = Some a → is_fitted a = true →
     get_json req = Ret (JObj d) →
     d !! "query" = Some (JStr s) → s ≠ "" → str_strip s ≠ "" →
     semantic_search (str_strip s)
       (default (JFloat 0.5) (d !! "similarity_threshold"))
       (default (JInt 20) (d !! "top_k")) a = (Ret [], a1) →
     get_module_distribution [] a1 = (Ret md, a2) →
     get_marks_distribution [] a2 = (Ret mk, a3) →
     status (serve Query req w).1 = 200 ∧
     ∃ d', body (serve Query req w).1 = Some (JObj d') ∧
           d' !! "results" = Some (JList []) ∧
           d' !! "total_matches" = Some (JInt 0)).
Proof.
  split.
  - intros (query & rs & md & mk & ->)%query_ok_body. simpl.
    eexists _, rs. split; [done|]. by split.
  - intros a d s md mk a1 a2 a3 Ha Hr Hj Hq Hs Hstrip H1 H2 H3.
    rewrite (query_run _ _ _ _ _ _ _ _ _ _ _ Ha Hr Hj Hq Hs Hstrip H1 H2 H3).
    simpl. split; [done|]. eexists. split; [done|]. by split.
Qed.

(** C4, as the code has it.  Behind the readiness check, a /query request
    whose payload is falsy, or is an object where [query] is missing, falsy
    or a string that is empty after stripping, is answered 400 and leaves
    the world as it was: no search, no other call. *)
Theorem empty_query_rejected req w data :
  is_ready w = true →
  get_json req = Ret data →
  (truthy data = false ∨
   ∃ d, data = JObj d ∧
     (d !! "query" = None ∨
      ∃ v, d !! "query" = Some v ∧
        (truthy v = false ∨ ∃ s, v = JStr s ∧ str_strip s = ""))) →
  status (serve Query req w).1 = 400 ∧
  (serve Query req w).2 = w ∧
  new_calls w (serve Query req w).2 = [].
Proof.
  intros Hr Hj Hbad.
  assert (status (serve Query req w).1 = 400 ∧ (serve Query req w).2 = w) as [H1 H2].
  { unfold serve, view, semantic_query, bind, lift, ret. rewrite Hr, Hj. simpl.
    destruct Hbad as [->|(d & -> & Hq)]; [done|].
    destruct (truthy (JObj d)); [|done]. cbn [py_get].
    destruct Hq as [->|(v & -> & [Hv|(s & -> & Hs)])]; simpl; [done| |].
    - by rewrite Hv.
    - destruct (String.eqb s ""); simpl; [done|]. by rewrite Hs. }
  rewrite H2. by rewrite new_calls_same.
Qed.

(** C5, as the code has it.  The handler does not look at the sign of
    [top_k]: with a ready analyzer and a query that is not empty, any value
    given for [top_k] is the third argument of the search, and when the
    three analyzer calls return, the answer is 200 and lists what the search
    returned. *)
Theorem top_k_passed_unchecked req w a d s k :
  exam_analyzer w = Some a → is_fitted a = true →
  get_json req = Ret (JObj d) →
  d !! "query" = Some (JStr s) → s ≠ "" → str_strip s ≠ "" →
  d !! "top_k" = Some k →
  let thr := default (JFloat 0.5) (d !! "similarity_threshold") in
  (∃ rest, new_calls w (serve Query req w).2 = CSearch (str_strip s) thr k :: rest) ∧
  (∀ rs md mk a1 a2 a3,
     semantic_search (str_strip s) thr k a = (Ret rs, a1) →
     get_module_distribution rs a1 = (Ret md, a2) →
     get_marks_distribution rs a2 = (Ret mk, a3) →
     (serve Query req w).1 = jsonify (query_body (str_strip s) rs md mk)).
Proof.
  intros Ha Hr Hj Hq Hs Hstrip Hk thr. split.
  - assert (is_ready w = true) as Hrw by (unfold is_ready; by rewrite Ha).
    destruct (query_first_call req w d s Hrw Hj Hq Hs Hstrip) as [rest Hc].
    rewrite Hk in Hc. by exists rest.
  - intros rs md mk a1 a2 a3 H1 H2 H3.
    rewrite (query_run req w a d s rs md mk a1 a2 a3); try done.
    by rewrite Hk.
Qed.

(** ** /pass-strategy and /pass-simulation *)

Lemma py_sub_int (x y : Z) : py_sub (JInt x) (JInt y) = Ret (NInt (x - y)).
Proof. reflexivity. Qed.

Lemma py_max_int (x y : Z) : py_max (JInt x) (NInt y) = Ret (JInt (Z.max x y)).
Proof.
  unfold py_max. simpl. destruct (Z.ltb_spec x y); simpl; f_equal; f_equal; lia.
Qed.

(** On integers the target is the mathematical maximum. *)
Lemma target_marks_int (e o n : Z) :
  target_marks (JInt e) (JInt o) (JInt n) = Ret (JInt (Z.max e (o - n))).
Proof. unfold target_marks. rewrite py_sub_int. apply py_max_int. Qed.

Lemma py_sub_raises a b e : py_sub a b = Raise e → ∃ c m, e = Exn c m.
Proof.
  unfold py_sub, float_of_int. intros He.
  repeat case_match; simplify_eq; by eauto.
Qed.

Lemma py_max_raises a n e : py_max a n = Raise e → ∃ c m, e = Exn c m.
Proof.
  unfold py_max, num_gt. intros He. repeat case_match; simplify_eq; by eauto.
Qed.

Lemma target_marks_raises x o n e : target_marks x o n = Raise e → ∃ c m, e = Exn c m.
Proof.
  unfold target_marks. destruct (py_sub o n) eqn:Hsub.
  - apply py_max_raises.
  - intros [= <-]. by eapply py_sub_raises.
Qed.

(** A value that is not a number makes the subtraction or the comparison
    raise. *)
Lemma target_marks_not_numbers x o n :
  as_number x = None ∨ as_number o = None ∨ as_number n = None →
  ∃ c m, target_marks x o n = Raise (Exn c m).
Proof.
  intros Hbad. destruct (target_marks x o n) as [t|e] eqn:Ht.
  - exfalso. unfold target_marks, py_sub, py_max, num_gt in Ht.
    destruct Hbad as [H|[H|H]]; rewrite H in Ht;
      repeat case_match; simplify_eq.
  - apply target_marks_raises in Ht as (c & m & ->). by eauto.
Qed.

Lemma read_pass_inputs_obj (d : gmap string json) :
  read_pass_inputs (JObj d) =
    match target_marks (default (JInt 40) (d !! "external_pass_threshold"))
                       (default (JInt 75) (d !! "overall_pass_threshold"))
                       (default (JInt 0) (d !! "internal_marks")) with
    | Ret t => Ret (PassInputs (default (JList []) (d !! "studied_topics"))
                               (default (JInt 0) (d !! "internal_marks")) t)
    | Raise e => Raise e
    end.
Proof. reflexivity. Qed.

Lemma truthy_obj_nonempty (d : gmap string json) : d ≠ ∅ → truthy (JObj d) = true.
Proof.
  intros Hd. simpl. destruct (size d) eqn:Hsz; [|done].
  by apply map_size_empty_iff in Hsz.
Qed.

(** The run of a pass endpoint on an object payload, ready analyzer. *)
Lemma pass_run ep req w a (d : gmap string json) :
  is_pass ep = true →
  exam_analyzer w = Some a → is_fitted a = true →
  get_json req = Ret (JObj d) → d ≠ ∅ →
  serve ep req w =
    match read_pass_inputs (JObj d) with
    | Raise _ => (internal_error, w)
    | Ret i =>
        let w' a1 := World (Some a1)
          (calls w ++ [pass_call ep (studied_topics i) (target_external_marks i)]) in
        match pass_method ep (studied_topics i) (target_external_marks i) a with
        | (Ret res, a1) => (jsonify (JObj (set_inputs i res)), w' a1)
        | (Raise (Exn _ _), a1) => (internal_error, w' a1)
        | (Raise (HTTPException ab), a1) => (Response (abort_code ab) None, w' a1)
        end
    end.
Proof.
  intros Hep Ha Hr Hj Hd.
  assert (∀ e, read_pass_inputs (JObj d) = Raise e → ∃ c m, e = Exn c m) as Hexn.
  { intros e. rewrite read_pass_inputs_obj.
    destruct (target_marks _ _ _) eqn:Ht; [done|].
    intros [= <-]. by eapply target_marks_raises. }
  destruct ep; try discriminate Hep; unfold serve, view, pass_strategy,
    pass_simulation, is_ready, bind, lift, ret, invoke;
    rewrite Ha, Hr, Hj; simpl negb; cbv iota;
    rewrite (truthy_obj_nonempty d Hd); simpl negb; cbv iota;
    (destruct (read_pass_inputs (JObj d)) as [i|e] eqn:Hi;
      [|by destruct (Hexn e eq_refl) as (c & m & ->)]);
    simpl; rewrite Ha;
    match goal with
    | |- context [?f (studied_topics i) (target_external_marks i) a] =>
        by destruct (f (studied_topics i) (target_external_marks i) a)
          as [[res|[c m|ab]] a1]
    end.
Qed.

(** A pass endpoint calls the analyzer only for a ready analyzer and a
    payload that is a non-empty object. *)
Lemma pass_call_inv ep req w c :
  is_pass ep = true →
  c ∈ new_calls w (serve ep req w).2 →
  ∃ a (d : gmap string json),
    exam_analyzer w = Some a ∧ is_fitted a = true ∧
    get_json req = Ret (JObj d) ∧ d ≠ ∅.
Proof.
  intros Hep Hc.
  destruct (is_ready w) eqn:Hr.
  - unfold is_ready in Hr. destruct (exam_analyzer w) as [a|] eqn:Ha; [|done].
    destruct (get_json req) as [data|e] eqn:Hj.
    + destruct (truthy data) eqn:Ht.
      * destruct data as [| | | | | |d];
          try (exfalso; revert Hc;
               destruct ep; try discriminate Hep;
               unfold serve, view, pass_strategy, pass_simulation, is_ready,
                 bind, lift, ret; rewrite Ha, Hr, Hj; simpl negb; cbv iota;
               rewrite Ht; simpl; rewrite new_calls_same;
               by intros ?%elem_of_nil).
        exists a, d. split_and!; try done. intros ->. by vm_compute in Ht.
      * exfalso. revert Hc. destruct ep; try discriminate Hep;
          unfold serve, view, pass_strategy, pass_simulation, is_ready,
            bind, lift, ret; rewrite Ha, Hr, Hj; simpl negb; cbv iota;
          rewrite Ht; simpl; rewrite new_calls_same; by intros ?%elem_of_nil.
    + exfalso. revert Hc. destruct ep; try discriminate Hep;
        unfold serve, view, pass_strategy, pass_simulation, is_ready,
          bind, lift, ret; rewrite Ha, Hr, Hj; simpl;
        destruct e; simpl; rewrite new_calls_same; by intros ?%elem_of_nil.
  - exfalso. revert Hc. destruct ep; try discriminate Hep;
      unfold serve, view, pass_strategy, pass_simulation; rewrite Hr; simpl;
      rewrite new_calls_same; by intros ?%elem_of_nil.
Qed.

(** A call a pass endpoint makes carries the target computed from the
    payload, and a 200 answer that follows it echoes the inputs. *)
Lemma pass_call_carries_target ep req w c :
  is_pass ep = true →
  c ∈ new_calls w (serve ep req w).2 →
  ∃ (d : gmap string json) studied internal target,
    get_json req = Ret (JObj d) ∧
    studied = default (JList []) (d !! "studied_topics") ∧
    internal = default (JInt 0) (d !! "internal_marks") ∧
    target_marks (default (JInt 40) (d !! "external_pass_threshold"))
                 (default (JInt 75) (d !! "overall_pass_threshold"))
                 internal = Ret target ∧
    (∀ e o n,
       default (JInt 40) (d !! "external_pass_threshold") = JInt e →
       default (JInt 75) (d !! "overall_pass_threshold") = JInt o →
       internal = JInt n →
       target = JInt (Z.max e (o - n))) ∧
    c = pass_call ep studied target ∧
    new_calls w (serve ep req w).2 = [c] ∧
    (status (serve ep req w).1 = 200 →
     ∃ (res inputs : gmap string json),
       body (serve ep req w).1 = Some (JObj res) ∧
       res !! "inputs" = Some (JObj inputs) ∧
       inputs !! "calculated_target_marks" = Some target ∧
       inputs !! "internal_marks" = Some internal ∧
       inputs !! "studied_topics" = Some studied).
Proof.
  intros Hep Hc.
  destruct (pass_call_inv ep req w c Hep Hc) as (a & d & Ha & Hr & Hj & Hd).
  revert Hc. rewrite (pass_run ep req w a d Hep Ha Hr Hj Hd).
  rewrite read_pass_inputs_obj.
  destruct (target_marks _ _ _) as [t|e] eqn:Ht.
  2:{ simpl. rewrite new_calls_same. by intros ?%elem_of_nil. }
  cbn [studied_topics target_external_marks internal_marks].
  set (i := PassInputs _ _ t).
  assert (∀ (r : response) a1, new_calls w
            (r, World (Some a1) (calls w ++
               [pass_call ep (default (JList []) (d !! "studied_topics")) t])).2
          = [pass_call ep (default (JList []) (d !! "studied_topics")) t]) as Hnew.
  { intros r a1. simpl. apply new_calls_app. }
  intros Hc. exists d, (default (JList []) (d !! "studied_topics")),
    (default (JInt 0) (d !! "internal_marks")), t.
  split_and!; try done.
  - intros e o n He Ho Hn. rewrite He, Ho, Hn, target_marks_int in Ht. congruence.
  - destruct (pass_method ep _ _ a) as [[res|[cl m|ab]] a1];
      rewrite (Hnew _ a1) in Hc; by apply list_elem_of_singleton in Hc.
  - destruct (pass_method ep _ _ a) as [[res|[cl m|ab]] a1];
      rewrite (Hnew _ a1) in Hc; apply list_elem_of_singleton in Hc as ->;
      by rewrite (Hnew _ a1).
  - destruct (pass_method ep _ _ a) as [[res|[cl m|ab]] a1]; simpl;
      [|done|by destruct ab].
    intros _. exists (set_inputs i res). eexists. split; [done|].
    split; [apply lookup_insert_eq|]. by split_and!.
Qed.

(** A falsy payload stops a pass endpoint before any input is read. *)
Lemma pass_falsy_payload ep req w data :
  is_pass ep = true → is_ready w = true →
  get_json req = Ret data → truthy data = false →
  serve ep req w = (error_response "Invalid JSON payload" 400, w).
Proof.
  intros Hep Hr Hj Ht.
  destruct ep; try discriminate Hep;
    unfold serve, view, pass_strategy, pass_simulation, bind, lift, ret;
    by rewrite Hr, Hj, Ht.
Qed.

(** A pass endpoint answers 200 only after its analyzer call. *)
Lemma pass_ok_has_call ep req w :
  is_pass ep = true →
  status (serve ep req w).1 = 200 →
  ∃ c, new_calls w (serve ep req w).2 = [c].
Proof.
  intros Hep.
  destruct ep; try discriminate Hep;
    unfold serve, view, pass_strategy, pass_simulation, bind, lift, ret, invoke;
    repeat case_match; simplify_eq/=; try done;
    try (by match goal with ab : http_abort |- _ => destruct ab end);
    intros _; eexists; apply new_calls_app.
Qed.

(** C2, as the code has it.  For a request to /pass-strategy or
    /pass-simulation that passes the readiness check with a non-empty
    object for which [max(external_pass_threshold, overall_pass_threshold -
    internal_marks)] can be computed, the handler makes one analyzer call,
    whose target is that maximum over the values read from the payload (on
    integers: the greater of the external threshold and the difference), by
    the same computation for both endpoints; when the call returns, the
    answer is what it returned with, under [inputs], that target as
    [calculated_target_marks] and the [internal_marks] and [studied_topics]
    that were read.  No other call is made, an answer with status 200 always
    follows such a call and carries that echo, and a request stopped at the
    readiness check or with a falsy payload passes and echoes nothing. *)
Theorem pass_target_marks ep req w :
  is_pass ep = true →
  (∀ a (d : gmap string json) target,
     exam_analyzer w = Some a → is_fitted a = true →
     get_json req = Ret (JObj d) → d ≠ ∅ →
     let studied := default (JList []) (d !! "studied_topics") in
     let internal := default (JInt 0) (d !! "internal_marks") in
     let external := default (JInt 40) (d !! "external_pass_threshold") in
     let overall := default (JInt 75) (d !! "overall_pass_threshold") in
     target_marks external overall internal = Ret target →
     new_calls w (serve ep req w).2 = [pass_call ep studied target] ∧
     (∀ e o n, external = JInt e → overall = JInt o → internal = JInt n →
        target = JInt (Z.max e (o - n))) ∧
     (∀ res a1,
        pass_method ep studied target a = (Ret res, a1) →
        ∃ inputs : gmap string json,
          serve ep req w =
            (jsonify (JObj (<["inputs" := JObj inputs]> res)),
             World (Some a1) (calls w ++ [pass_call ep studied target])) ∧
          inputs !! "calculated_target_marks" = Some target ∧
          inputs !! "internal_marks" = Some internal ∧
          inputs !! "studied_topics" = Some studied)) ∧
  (∀ c, c ∈ new_calls w (serve ep req w).2 →
     ∃ (d : gmap string json) target,
       get_json req = Ret (JObj d) ∧
       target_marks (default (JInt 40) (d !! "external_pass_threshold"))
                    (default (JInt 75) (d !! "overall_pass_threshold"))
                    (default (JInt 0) (d !! "internal_marks")) = Ret target ∧
       c = pass_call ep (default (JList []) (d !! "studied_topics")) target) ∧
  (status (serve ep req w).1 = 200 →
     ∃ (d res inputs : gmap string json) target,
       get_json req = Ret (JObj d) ∧
       target_marks (default (JInt 40) (d !! "external_pass_threshold"))
                    (default (JInt 75) (d !! "overall_pass_threshold"))
                    (default (JInt 0) (d !! "internal_marks")) = Ret target ∧
       new_calls w (serve ep req w).2 =
         [pass_call ep (default (JList []) (d !! "studied_topics")) target] ∧
       body (serve ep req w).1 = Some (JObj res) ∧
       res !! "inputs" = Some (JObj inputs) ∧
       inputs !! "calculated_target_marks" = Some target ∧
       inputs !! "internal_marks" = Some (default (JInt 0) (d !! "internal_marks")) ∧
       inputs !! "studied_topics" = Some (default (JList []) (d !! "studied_topics"))) ∧
  (is_ready w = false → serve ep req w = (not_ready, w)) ∧
  (is_ready w = true →
   ∀ data, get_json req = Ret data → truthy data = false →
     serve ep req w = (error_response "Invalid JSON payload" 400, w)).
Proof.
  intros Hep. split_and!.
  - intros a d target Ha Hr Hj Hd studied internal external overall Ht.
    rewrite (pass_run ep req w a d Hep Ha Hr Hj Hd), read_pass_inputs_obj.
    fold studied internal external overall. rewrite Ht.
    cbn [studied_topics target_external_marks internal_marks].
    split_and!.
    + destruct (pass_method ep studied target a) as [[res|[cl m|ab]] a1]; simpl;
        apply new_calls_app.
    + intros e o n He Ho Hn. rewrite He, Ho, Hn, target_marks_int in Ht. congruence.
    + intros res a1 ->. eexists. split; [reflexivity|]. by split_and!.
  - intros c Hc.
    destruct (pass_call_carries_target ep req w c Hep Hc)
      as (d & studied & internal & target & Hj & -> & -> & Ht & _ & -> & _).
    by exists d, target.
  - intros Hok. destruct (pass_ok_has_call ep req w Hep Hok) as [c Hc].
    assert (c ∈ new_calls w (serve ep req w).2) as Hin by (rewrite Hc; left).
    destruct (pass_call_carries_target ep req w c Hep Hin)
      as (d & studied & internal & target & Hj & -> & -> & Ht & _ & -> & Hnew & Hecho).
    destruct (Hecho Hok) as (res & inputs & Hb & Hi & H1 & H2 & H3).
    by exists d, res, inputs, target.
  - intros Hr. destruct ep; try discriminate Hep;
      unfold serve, view, pass_strategy, pass_simulation; by rewrite Hr.
  - intros Hr data Hj Ht. by apply (pass_falsy_payload ep req w data).
Qed.

(** ** /topics *)

(** The run of /topics once [min_frequency] has been read as [n]. *)
Lemma topics_run req w a n :
  exam_analyzer w = Some a → is_fitted a = true →
  match args_get (args req) "min_frequency" with
  | Some s => py_int s
  | None => Ret 2
  end = Ret n →
  new_calls w (serve Topics req w).2 = [CTopicAnalysis n].
Proof.
  intros Ha Hr Hn.
  unfold serve, view, analyze_topics, is_ready, bind, lift, ret, invoke.
  rewrite Ha, Hr. simpl negb. cbv iota. rewrite Hn, ?Ha. simpl. rewrite ?Ha.
  destruct (get_topic_analysis n a) as [[l|[c m|ab]] a1]; simpl;
    apply new_calls_app.
Qed.

(** ** Defaults and malformed numbers *)

(** C10, as the code has it.  Behind the readiness check, when the handler
    reaches the analyzer, an input the request omits has its fixed default:
    /query searches with [similarity_threshold] 0.5 and [top_k] 20, /topics
    analyses with [min_frequency] 2, and the pass endpoints, given a
    non-empty object, call with [studied_topics] [[]] and the target
    computed from [internal_marks] 0, [external_pass_threshold] 40 and
    [overall_pass_threshold] 75; an input that is given is used as given.
    A payload that omits everything, the empty object, is falsy: the pass
    endpoints answer it 400, put no default in its place and call
    nothing. *)
Theorem defaults_for_omitted req w :
  is_ready w = true →
  (∀ (d : gmap string json) s,
     get_json req = Ret (JObj d) →
     d !! "query" = Some (JStr s) → s ≠ "" → str_strip s ≠ "" →
     ∃ thr k rest,
       new_calls w (serve Query req w).2 = CSearch (str_strip s) thr k :: rest ∧
       thr = default (JFloat 0.5) (d !! "similarity_threshold") ∧
       k = default (JInt 20) (d !! "top_k") ∧
       (d !! "similarity_threshold" = None → thr = JFloat 0.5) ∧
       (d !! "top_k" = None → k = JInt 20)) ∧
  (args_get (args req) "min_frequency" = None →
     new_calls w (serve Topics req w).2 = [CTopicAnalysis 2]) ∧
  (∀ ep (d : gmap string json) target,
     is_pass ep = true →
     get_json req = Ret (JObj d) → d ≠ ∅ →
     target_marks (default (JInt 40) (d !! "external_pass_threshold"))
                  (default (JInt 75) (d !! "overall_pass_threshold"))
                  (default (JInt 0) (d !! "internal_marks")) = Ret target →
     new_calls w (serve ep req w).2 =
       [pass_call ep (default (JList []) (d !! "studied_topics")) target] ∧
     (d !! "studied_topics" = None →
      d !! "internal_marks" = None →
      d !! "external_pass_threshold" = None →
      d !! "overall_pass_threshold" = None →
      new_calls w (serve ep req w).2 = [pass_call ep (JList []) (JInt 75)])) ∧
  (∀ ep data,
     is_pass ep = true →
     get_json req = Ret data → truthy data = false →
     serve ep req w = (error_response "Invalid JSON payload" 400, w) ∧
     new_calls w (serve ep req w).2 = []).
Proof.
  intros Hr. pose proof Hr as Hr'. unfold is_ready in Hr'.
  destruct (exam_analyzer w) as [a|] eqn:Ha; [|done].
  split_and!.
  - intros d s Hj Hq Hs Hstrip.
    destruct (query_first_call req w d s Hr Hj Hq Hs Hstrip) as [rest Hc].
    eexists _, _, rest. split; [exact Hc|]. split_and!; try done.
    + by intros ->.
    + by intros ->.
  - intros Hargs. apply (topics_run req w a 2 Ha Hr'). by rewrite Hargs.
  - intros ep d target Hep Hj Hd Ht.
    assert (new_calls w (serve ep req w).2 =
      [pass_call ep (default (JList []) (d !! "studied_topics")) target]) as Hc.
    { rewrite (pass_run ep req w a d Hep Ha Hr' Hj Hd), read_pass_inputs_obj, Ht.
      cbn [studied_topics target_external_marks].
      destruct (pass_method ep _ _ a) as [[res|[cl m|ab]] a1]; simpl;
        apply new_calls_app. }
    split; [exact Hc|].
    intros H1 H2 H3 H4. rewrite Hc, H1. rewrite H2, H3, H4 in Ht.
    simpl in Ht. rewrite target_marks_int in Ht. by simplify_eq.
  - intros ep data Hep Hj Ht.
    rewrite (pass_falsy_payload ep req w data Hep Hr Hj Ht). split; [done|].
    apply new_calls_same.
Qed.

(** C6, as the code has it.  Behind the readiness check, a [min_frequency]
    that [int] rejects, or an [internal_marks], [external_pass_threshold] or
    [overall_pass_threshold] that is not a number, raises before any
    analyzer call; no handler catches it, so the answer is the one of the
    500 handler and the world is as it was. *)
Theorem malformed_number_is_500 req w :
  is_ready w = true →
  status internal_error = 500 ∧
  (∀ s c m,
     args_get (args req) "min_frequency" = Some s →
     py_int s = Raise (Exn c m) →
     serve Topics req w = (internal_error, w)) ∧
  (∀ ep (d : gmap string json) k v,
     is_pass ep = true →
     get_json req = Ret (JObj d) →
     k = "internal_marks" ∨ k = "external_pass_threshold" ∨
       k = "overall_pass_threshold" →
     d !! k = Some v → as_number v = None →
     serve ep req w = (internal_error, w)).
Proof.
  intros Hr. pose proof Hr as Hr'. unfold is_ready in Hr'.
  destruct (exam_analyzer w) as [a|] eqn:Ha; [|done].
  split_and!; [done| |].
  - intros s c m Hs Hint.
    unfold serve, view, analyze_topics, bind, lift, ret.
    by rewrite Hr, Hs, Hint.
  - intros ep d k v Hep Hj Hk Hv Hnum.
    assert (d ≠ ∅) as Hd by (intros ->; by rewrite lookup_empty in Hv).
    rewrite (pass_run ep req w a d Hep Ha Hr' Hj Hd), read_pass_inputs_obj.
    destruct (target_marks_not_numbers
                (default (JInt 40) (d !! "external_pass_threshold"))
                (default (JInt 75) (d !! "overall_pass_threshold"))
                (default (JInt 0) (d !! "internal_marks"))) as (c & m & ->);
      [|done].
    destruct Hk as [-> | [-> | ->]]; rewrite Hv; simpl; by eauto.
Qed.

(** ** /topics-for-course *)

Lemma find_course_skips code pre rest :
  Forall (other_course code) pre →
  find_course code (pre ++ rest)%list = find_course code rest.
Proof.
  induction 1 as [|entry pre (c & Hc & Hne) _ IH]; [done|].
  simpl. destruct entry as [| | | | | |course]; try done.
  simpl in Hc |- *. destruct (default (JStr "") (course !! "courseCode")); try done.
  simplify_eq. apply String.eqb_neq in Hne. by rewrite Hne.
Qed.

Lemma find_course_match code (course : gmap string json) c rest :
  entry_code (JObj course) = Some c → str_upper c = str_upper code →
  find_course code (JObj course :: rest) = Ret (jsonify (course_answer course)).
Proof.
  intros Hc Heq. simpl in Hc |- *.
  destruct (default (JStr "") (course !! "courseCode")); try done.
  simplify_eq. apply String.eqb_eq in Heq. by rewrite Heq.
Qed.

(** C7, as the code has it.  A missing (or empty) [code] parameter gives
    400.  Otherwise, when [exams_info.json] is read as an object whose
    [courses] is a list, the first entry whose [courseCode] equals the
    parameter after upper-casing both is returned with its [courseCode] and
    its [topics] ([[]] when absent), the entries before it being objects
    with other codes, and when every entry has another code the answer is
    404; when the file is not found the answer is 500.  No case touches the
    analyzer. *)
Theorem topics_for_course_lookup req w :
  (args_get (args req) "code" = None ∨ args_get (args req) "code" = Some "" →
   serve TopicsForCourse req w = (code_required, w) ∧ status code_required = 400) ∧
  (∀ code, args_get (args req) "code" = Some code → code ≠ "" →
     (∀ m, exams_info = Raise (Exn FileNotFoundError m) →
        status (serve TopicsForCourse req w).1 = 500 ∧
        (serve TopicsForCourse req w).2 = w) ∧
     (∀ (t : gmap string json) l,
        exams_info = Ret (JObj t) →
        default (JList []) (t !! "courses") = JList l →
        (∀ pre (course : gmap string json) post c,
           l = (pre ++ JObj course :: post)%list →
           Forall (other_course code) pre →
           entry_code (JObj course) = Some c → str_upper c = str_upper code →
           serve TopicsForCourse req w = (jsonify (course_answer course), w)) ∧
        (Forall (other_course code) l →
           serve TopicsForCourse req w = (course_not_found code, w) ∧
           status (course_not_found code) = 404))).
Proof.
  split.
  - intros Hc. split; [|done].
    unfold serve, view, get_topics_for_course, ret.
    by destruct Hc as [-> | ->].
  - intros code Hc Hne. apply String.eqb_neq in Hne.
    split.
    + intros m Hf. unfold serve, view, get_topics_for_course.
      rewrite Hc, Hne. unfold try_except, bind, lift, ret. by rewrite Hf.
    + intros t l Hf Hl.
      assert (∀ r, find_course code l = Ret r →
                serve TopicsForCourse req w = (r, w)) as Hserve.
      { intros r Hr. unfold serve, view, get_topics_for_course.
        rewrite Hc, Hne. unfold try_except, bind, lift, ret.
        rewrite Hf. cbn [py_get]. rewrite Hl. cbn [py_iter]. by rewrite Hr. }
      split.
      * intros pre course post c -> Hpre Hcode Heq. apply Hserve.
        rewrite (find_course_skips code pre _ Hpre).
        by eapply find_course_match.
      * intros Hall. split; [|done]. apply Hserve.
        rewrite <- (app_nil_r l). by rewrite (find_course_skips code l [] Hall).
Qed.

(** ** Initialization *)

(** C9. [initialize_exam_analyzer] returns a bool from every world and
    never raises.  When the data folder does not exist it returns [False]
    after the constructor alone, with no load and no build, and a new
    analyzer that is not fitted leaves the process not ready; when the
    constructor, [load_json_files] or [build_embeddings] raises, the
    exception is caught and the result is [False]. *)
Theorem initialize_never_raises w :
  (∃ b, (initialize_exam_analyzer w).1 = Ret b) ∧
  (path_exists DATA_FOLDER = false →
     (initialize_exam_analyzer w).1 = Ret false ∧
     new_calls w (initialize_exam_analyzer w).2 = [CNew]) ∧
  (∀ a, path_exists DATA_FOLDER = false →
     new_analyzer = Ret a → is_fitted a = false →
     is_ready (initialize_exam_analyzer w).2 = false) ∧
  (∀ e, new_analyzer = Raise e → (initialize_exam_analyzer w).1 = Ret false) ∧
  (∀ a e a1, new_analyzer = Ret a → path_exists DATA_FOLDER = true →
     load_json_files DATA_FOLDER a = (Raise e, a1) →
     (initialize_exam_analyzer w).1 = Ret false) ∧
  (∀ a a1 e a2, new_analyzer = Ret a → path_exists DATA_FOLDER = true →
     load_json_files DATA_FOLDER a = (Ret (), a1) →
     build_embeddings a1 = (Raise e, a2) →
     (initialize_exam_analyzer w).1 = Ret false).
Proof.
  unfold initialize_exam_analyzer, try_except, bind, construct, invoke, ret.
  split_and!.
  - destruct new_analyzer as [a|e]; simpl; [|by eauto].
    destruct (path_exists DATA_FOLDER); simpl; [|by eauto].
    destruct (load_json_files DATA_FOLDER a) as [[[]|e] a1]; simpl; [|by eauto].
    destruct (build_embeddings a1) as [[[]|e] a2]; simpl; by eauto.
  - intros Hex. destruct new_analyzer; simpl; rewrite ?Hex; simpl;
      (split; [done|]); by rewrite new_calls_app.
  - intros a Hex -> Hfit. simpl. by rewrite Hex.
  - by intros e ->.
  - intros a e a1 -> Hex Hload. simpl. rewrite Hex. simpl. by rewrite Hload.
  - intros a a1 e a2 -> Hex Hload Hbuild. simpl. rewrite Hex. simpl.
    rewrite Hload. simpl. by rewrite Hbuild.
Qed.

End handler_facts.

(** * Further properties of the exam endpoints *)

Section more_handler_facts.
Context {A : Type} {analyzer_class : ExamAnalyzer A} {builtins : Builtins} {env : Env}.
Implicit Types (w : world A) (req : request) (ep : endpoint).

(** ** Initialization, continued *)


(** X2. Initialization replaces the global as soon as the constructor
    returns, before the folder is looked at: with the data folder missing
    the global becomes the new, unloaded instance whatever it was before,
    so a process that was ready stops being ready if the new instance is
    not fitted.  When the constructor raises, the global keeps its value. *)
Theorem initialize_replaces_analyzer w :
  (∀ a, new_analyzer = Ret a → path_exists DATA_FOLDER = false →
     exam_analyzer (initialize_exam_analyzer w).2 = Some a ∧
     (is_fitted a = false → is_ready (initialize_exam_analyzer w).2 = false)) ∧
  (∀ e, new_analyzer = Raise e →
     exam_analyzer (initialize_exam_analyzer w).2 = exam_analyzer w).
Proof.
  unfold initialize_exam_analyzer, try_except, bind, construct, invoke, ret, is_ready.
  split.
  - intros a -> Hex. simpl. rewrite Hex. simpl. by split.
  - by intros e ->.
Qed.

(** ** Payloads *)

(** X3. /pass-strategy and /pass-simulation answer 400 "Invalid JSON
    payload" to every falsy payload, the empty object included, without
    reading an input or calling the analyzer. *)
Theorem pass_rejects_falsy_payload ep req w data :
  is_pass ep = true → is_ready w = true →
  get_json req = Ret data → truthy data = false →
  serve ep req w = (error_response "Invalid JSON payload" 400, w).
Proof.
  intros Hep Hr Hj Ht.
  destruct ep; try discriminate Hep;
    unfold serve, view, pass_strategy, pass_simulation, bind, lift, ret;
    by rewrite Hr, Hj, Ht.
Qed.

(** X4. On /query, /pass-strategy and /pass-simulation a payload that is
    truthy but not an object (an array, a string, a number, [true]) makes
    [data.get] raise: the answer is the one of the 500 handler and the
    analyzer is not called. *)
Theorem non_object_payload_is_500 ep req w data :
  ep = Query ∨ is_pass ep = true →
  is_ready w = true →
  get_json req = Ret data → truthy data = true →
  (∀ d, data ≠ JObj d) →
  serve ep req w = (internal_error, w).
Proof.
  intros Hep Hr Hj Ht Hd.
  assert (∀ k dflt, py_get data k dflt = no_attribute data "get") as Hget.
  { intros k dflt. destruct data; try done. by destruct (Hd m). }
  destruct Hep as [-> | Hep]; [|destruct ep; try discriminate Hep];
    unfold serve, view, semantic_query, pass_strategy, pass_simulation,
      read_pass_inputs, bind, lift, ret;
    by rewrite Hr, Hj, Ht, ?Hget.
Qed.

(** X5. On /query a [query] that is truthy but not a string (a number, a
    non-empty array or object, [true]) has no [strip]: the answer is the
    one of the 500 handler and the search is not called. *)
Theorem non_string_query_is_500 req w (d : gmap string json) v :
  is_ready w = true →
  get_json req = Ret (JObj d) →
  d !! "query" = Some v → truthy v = true → (∀ s, v ≠ JStr s) →
  serve Query req w = (internal_error, w).
Proof.
  intros Hr Hj Hq Ht Hv.
  unfold serve, view, semantic_query, bind, lift, ret.
  rewrite Hr, Hj, (truthy_obj _ _ _ Hq). simpl. rewrite Hq. simpl. rewrite Ht.
  simpl. destruct v; try done. by destruct (Hv s).
Qed.

(** ** /topics and /stats *)

(** X6. A 200 answer of /topics reports as [total_topics] the number of
    entries of [topics] and echoes under [parameters] the integer that
    [min_frequency] was read as, which is the one argument of the single
    analyzer call; the integer is not checked for sign. *)
Theorem topics_answer_shape req w :
  status (serve Topics req w).1 = 200 →
  ∃ n topic_list (d params : gmap string json),
    match args_get (args req) "min_frequency" with
    | Some s => py_int s
    | None => Ret 2
    end = Ret n ∧
    new_calls w (serve Topics req w).2 = [CTopicAnalysis n] ∧
    body (serve Topics req w).1 = Some (JObj d) ∧
    d !! "topics" = Some (JList topic_list) ∧
    d !! "total_topics" = Some (JInt (Z.of_nat (length topic_list))) ∧
    d !! "parameters" = Some (JObj params) ∧
    params !! "min_frequency" = Some (JInt n).
Proof.
  unfold serve, view, analyze_topics, bind, lift, ret, invoke.
  destruct (is_ready w) eqn:Hr; simpl; [|done].
  destruct (match args_get (args req) "min_frequency" with
            | Some s => py_int s | None => Ret 2 end) as [n|[c m|ab]] eqn:Hn;
    simpl; [|done|by destruct ab].
  destruct (exam_analyzer w) as [a|] eqn:Ha; simpl; [|done].
  destruct (get_topic_analysis n a) as [[l|[c m|ab]] a1]; simpl;
    [|done|by destruct ab].
  intros _. exists n, l. eexists _, _.
  split; [done|]. split; [apply new_calls_app|]. by split_and!.
Qed.

(** X7. /stats with a ready analyzer makes the one call [get_stats] and
    answers with exactly what it returned. *)
Theorem stats_returns_get_stats req w a v a1 :
  exam_analyzer w = Some a → is_fitted a = true →
  get_stats a = (Ret v, a1) →
  serve Stats req w = (jsonify v, World (Some a1) (calls w ++ [CStats])).
Proof.
  intros Ha Hr Hs.
  unfold serve, view, dataset_stats, is_ready, bind, ret, invoke.
  rewrite Ha, Hr. simpl. by rewrite ?Ha, Hs.
Qed.

(** X8. When the search itself raises, /query stops there: the answer is
    the one of the 500 handler, the two distribution calls are not made,
    and the analyzer stays as the failed search left it. *)
Theorem search_failure_is_500 req w a (d : gmap string json) s c m a1 :
  exam_analyzer w = Some a → is_fitted a = true →
  get_json req = Ret (JObj d) →
  d !! "query" = Some (JStr s) → s ≠ "" → str_strip s ≠ "" →
  let thr := default (JFloat 0.5) (d !! "similarity_threshold") in
  let k := default (JInt 20) (d !! "top_k") in
  semantic_search (str_strip s) thr k a = (Raise (Exn c m), a1) →
  serve Query req w =
    (internal_error, World (Some a1) (calls w ++ [CSearch (str_strip s) thr k])).
Proof.
  intros Ha Hr Hj Hq Hs Hstrip thr k Hsearch.
  unfold serve, view, semantic_query, is_ready. rewrite Ha, Hr. simpl.
  unfold bind, lift, ret, invoke. rewrite Hj, (truthy_obj _ _ _ Hq). simpl.
  rewrite Hq. simpl. apply truthy_str in Hs. simpl in Hs. rewrite Hs. simpl.
  apply String.eqb_neq in Hstrip. rewrite Hstrip. simpl. rewrite Ha.
  fold thr k. by rewrite Hsearch.
Qed.

(** ** /topics-for-course, continued *)

Lemma find_course_status code l r :
  find_course code l = Ret r → status r = 200 ∨ status r = 404.
Proof.
  induction l as [|entry l IH]; simpl.
  - intros [= <-]. by right.
  - repeat case_match; try done; intros [= <-]; by left.
Qed.

Lemma find_course_bad_entry code bad rest :
  entry_code bad = None →
  ∃ m, find_course code (bad :: rest) = Raise (Exn AttributeError m).
Proof.
  intros Hbad. simpl.
  destruct bad as [| | | | | |course]; try (by eexists).
  simpl in Hbad |- *.
  destruct (default (JStr "") (course !! "courseCode")); try done; by eexists.
Qed.

(** The answer of /topics-for-course is a function of the request. *)
Lemma topics_for_course_answer req :
  ∃ r, (∀ w, serve TopicsForCourse req w = (r, w)) ∧
       (status r = 200 ∨ status r = 400 ∨ status r = 404 ∨ status r = 500).
Proof.
  unfold serve, view, get_topics_for_course, try_except, bind, lift, ret.
  destruct (args_get (args req) "code") as [code|]; [|by eexists; split; eauto].
  destruct (String.eqb code ""); [by eexists; split; eauto|].
  destruct exams_info as [data|[[] m|ab]]; simpl; try (by eexists; split; eauto).
  destruct (py_get data "courses" (JList [])) as [courses|[[] m|ab]]; simpl;
    try (by eexists; split; eauto).
  destruct (py_iter courses) as [items|[[] m|ab]]; simpl;
    try (by eexists; split; eauto).
  destruct (find_course code items) as [r|[[] m|ab]] eqn:Hf; simpl;
    try (by eexists; split; eauto).
  exists r. split; [done|].
  destruct (find_course_status _ _ _ Hf) as [-> | ->]; eauto.
Qed.

(** X9. /topics-for-course has no readiness check and never looks at the
    analyzer: the answer depends on the request and the file alone, the
    world is left as it was, and the status is 200, 400, 404 or 500 (every
    exception of the lookup is caught in the handler). *)
Theorem topics_for_course_ignores_analyzer req :
  ∃ r, (∀ w, serve TopicsForCourse req w = (r, w)) ∧
       (∀ w w', (serve TopicsForCourse req w).1 = (serve TopicsForCourse req w').1) ∧
       (status r = 200 ∨ status r = 400 ∨ status r = 404 ∨ status r = 500).
Proof.
  destruct (topics_for_course_answer req) as (r & Hr & Hs).
  exists r. split_and!; [done| |done]. intros w w'. by rewrite !Hr.
Qed.

(** X10. An entry of the table that is not an object, or whose
    [courseCode] is not a string, stops the lookup when the loop reaches
    it: the answer is 500 even if a later entry has the code asked for. *)
Theorem malformed_entry_is_500 req w code (t : gmap string json) pre bad post :
  args_get (args req) "code" = Some code → code ≠ "" →
  exams_info = Ret (JObj t) →
  default (JList []) (t !! "courses") = JList (pre ++ bad :: post)%list →
  Forall (other_course code) pre →
  entry_code bad = None →
  status (serve TopicsForCourse req w).1 = 500 ∧
  (serve TopicsForCourse req w).2 = w.
Proof.
  intros Hc Hne Hf Hl Hpre Hbad. apply String.eqb_neq in Hne.
  unfold serve, view, get_topics_for_course. rewrite Hc, Hne.
  unfold try_except, bind, lift, ret. rewrite Hf. cbn [py_get]. rewrite Hl.
  cbn [py_iter]. rewrite (find_course_skips code pre _ Hpre).
  by destruct (find_course_bad_entry code bad post Hbad) as [m ->].
Qed.

(** ** What a request leaves in place *)

(** With a ready analyzer no analytical endpoint answers 503. *)
Lemma ready_status ep req w :
  is_ready w = true → analytical ep = true →
  status (serve ep req w).1 ≠ 503.
Proof.
  intros Hr Hep.
  destruct ep; try discriminate Hep;
    unfold serve, view, semantic_query, pass_strategy, pass_simulation,
      analyze_topics, dataset_stats, bind, lift, ret, invoke;
    rewrite Hr; simpl negb; cbv iota;
    repeat case_match; simplify_eq/=; try done;
    by match goal with ab : http_abort |- _ => destruct ab end.
Qed.

(** X11. No request creates or removes the analyzer: after any endpoint
    the global is [None] exactly if it was before, and the calls logged
    before the request are still there, in order, before the new ones. *)
Theorem requests_keep_the_analyzer ep req w :
  (exam_analyzer (serve ep req w).2 = None ↔ exam_analyzer w = None) ∧
  ∃ l, calls (serve ep req w).2 = (calls w ++ l)%list.
Proof.
  destruct (topics_for_course_answer req) as (r & Hr & _).
  destruct ep; [rewrite Hr; simpl; split; [done|]; exists []; by rewrite app_nil_r|..];
    unfold serve, view, semantic_query, pass_strategy, pass_simulation,
      analyze_topics, dataset_stats, bind, lift, ret, invoke;
    repeat case_match; simplify_eq/=;
    (split; [try done; split; congruence|]);
    rewrite <- ?app_assoc;
    first [by eexists | exists []; by rewrite app_nil_r].
Qed.

End more_handler_facts.

(** * Properties of the RAG endpoints, the health check and the 404 handler *)

Section rag_facts.
Context {A : Type} {analyzer_class : ExamAnalyzer A} {builtins : Builtins} {env : Env}.
Context {R : Type} {rag_class : Rag.RAGAnalyzer R} {config : Rag.Config}.
Implicit Types (w : world A) (rw : Rag.rag_world R) (req : request).

Lemma new_rag_calls_same rw : Rag.new_rag_calls rw rw = [].
Proof. unfold Rag.new_rag_calls. by rewrite drop_all. Qed.

Lemma new_rag_calls_app (o : option R) rw l e :
  Rag.new_rag_calls rw (Rag.RagWorld o (Rag.rag_calls rw ++ l) e) = l.
Proof. unfold Rag.new_rag_calls. simpl. by rewrite drop_app_length. Qed.

Lemma ask_ready_status req rw :
  Rag.rag_ready rw = true → status (Rag.rag_serve Rag.Ask req rw).1 ≠ 503.
Proof.
  intros Hr.
  unfold Rag.rag_serve, Rag.rag_view, Rag.ask_document, Rag.bind, Rag.lift,
    Rag.ret, Rag.invoke.
  rewrite Hr; simpl negb; cbv iota.
  repeat case_match; simplify_eq/=; try done;
    by match goal with ab : http_abort |- _ => destruct ab end.
Qed.

(** X12. /health always answers 200 with [server_status] "healthy", and
    its two flags agree with the gates of the endpoints:
    [exam_analyzer_ready] is true exactly when no analytical endpoint
    answers 503, and [rag_analyzer_ready] is true exactly when /ask does
    not answer 503. *)
Theorem health_matches_gates w rw :
  ∃ (d : gmap string json) be br,
    Rag.health_check w rw = jsonify (JObj d) ∧
    d !! "server_status" = Some (JStr "healthy") ∧
    d !! "exam_analyzer_ready" = Some (JBool be) ∧
    d !! "rag_analyzer_ready" = Some (JBool br) ∧
    (be = true ↔
     ∀ ep req, analytical ep = true → status (serve ep req w).1 ≠ 503) ∧
    (br = true ↔
     ∀ req, status (Rag.rag_serve Rag.Ask req rw).1 ≠ 503).
Proof.
  eexists _, (is_ready w), (Rag.rag_ready rw).
  split; [reflexivity|]. split_and!; try done.
  - split.
    + intros Hr ep req Hep. by apply ready_status.
    + intros Hall. destruct (is_ready w) eqn:Hr; [done|].
      exfalso. apply (Hall Stats (Request [] (Ret JNull)) eq_refl).
      unfold serve, view, dataset_stats. by rewrite Hr.
  - split.
    + intros Hr req. by apply ask_ready_status.
    + intros Hall. destruct (Rag.rag_ready rw) eqn:Hr; [done|].
      exfalso. apply (Hall (Request [] (Ret JNull))).
      unfold Rag.rag_serve, Rag.rag_view, Rag.ask_document. by rewrite Hr.
Qed.

(** X13. /re-index only asks for the analyzer to exist.  With an analyzer
    whose [qa_chain] is not set, /health reports the RAG side not ready and
    /ask answers 503 without a call, but /re-index runs
    [index_documents]. *)
Theorem reindex_gate_is_weaker w rw req r :
  Rag.rag_analyzer rw = Some r → Rag.qa_chain r = false →
  (∃ d : gmap string json,
     Rag.health_check w rw = jsonify (JObj d) ∧
     d !! "rag_analyzer_ready" = Some (JBool false)) ∧
  status (Rag.rag_serve Rag.Ask req rw).1 = 503 ∧
  (Rag.rag_serve Rag.Ask req rw).2 = rw ∧
  Rag.new_rag_calls rw (Rag.rag_serve Rag.ReIndex req rw).2 = [Rag.RIndex].
Proof.
  intros Hr Hq. split_and!.
  - eexists. split; [reflexivity|]. unfold Rag.health_check. by rewrite Hr, Hq.
  - unfold Rag.rag_serve, Rag.rag_view, Rag.ask_document, Rag.rag_ready.
    by rewrite Hr, Hq.
  - unfold Rag.rag_serve, Rag.rag_view, Rag.ask_document, Rag.rag_ready.
    by rewrite Hr, Hq.
  - unfold Rag.rag_serve, Rag.rag_view, Rag.re_index_documents, Rag.bind,
      Rag.ret, Rag.invoke. rewrite Hr. simpl. rewrite ?Hr.
    destruct (Rag.index_documents r) as [[[]|[c m|ab]] r1]; simpl;
      apply new_rag_calls_app.
Qed.

(** X14. Behind its gate, /ask answers 400 to a payload that is falsy, or
    an object where [query] is missing, falsy or a string that is empty
    after stripping; the analyzer is not asked and the world is as it
    was. *)
Theorem ask_rejects_empty_query req rw data :
  Rag.rag_ready rw = true →
  get_json req = Ret data →
  (truthy data = false ∨
   ∃ d, data = JObj d ∧
     (d !! "query" = None ∨
      ∃ v, d !! "query" = Some v ∧
        (truthy v = false ∨ ∃ s, v = JStr s ∧ str_strip s = ""))) →
  Rag.rag_serve Rag.Ask req rw =
    (error_response "Missing or empty required field: query" 400, rw).
Proof.
  intros Hr Hj Hbad.
  unfold Rag.rag_serve, Rag.rag_view, Rag.ask_document, Rag.bind, Rag.lift, Rag.ret.
  rewrite Hr, Hj. simpl.
  destruct Hbad as [-> | (d & -> & Hq)]; [done|].
  destruct (truthy (JObj d)); [|done]. cbn [py_get].
  destruct Hq as [-> | (v & -> & [Hv | (s & -> & Hs)])]; simpl; [done| |].
  - by rewrite Hv.
  - destruct (String.eqb s ""); simpl; [done|]. by rewrite Hs.
Qed.

(** X15. /ask strips the query only to test it: the analyzer is asked the
    string as the payload gave it, surrounding whitespace included, and the
    answer echoes that same string beside what [ask] returned. *)
Theorem ask_passes_query_as_given req rw r (d : gmap string json) s answer r1 :
  Rag.rag_analyzer rw = Some r → Rag.qa_chain r = true →
  get_json req = Ret (JObj d) →
  d !! "query" = Some (JStr s) → s ≠ "" → str_strip s ≠ "" →
  Rag.ask s r = (Ret answer, r1) →
  Rag.rag_serve Rag.Ask req rw =
    (jsonify (JObj (list_to_map [("query", JStr s); ("answer", answer)])),
     Rag.RagWorld (Some r1) (Rag.rag_calls rw ++ [Rag.RAsk s]) (Rag.environ rw)).
Proof.
  intros Hr Hq Hj Hd Hs Hstrip Hask.
  unfold Rag.rag_serve, Rag.rag_view, Rag.ask_document, Rag.rag_ready.
  rewrite Hr, Hq. simpl.
  unfold Rag.bind, Rag.lift, Rag.ret, Rag.invoke.
  rewrite Hj, (truthy_obj _ _ _ Hd). simpl. rewrite Hd. simpl.
  apply truthy_str in Hs. simpl in Hs. rewrite Hs. simpl.
  apply String.eqb_neq in Hstrip. rewrite Hstrip. simpl.
  by rewrite Hr, Hask.
Qed.

(** X16. /re-index reads nothing from the request: with no analyzer it
    answers 503 and calls nothing; with one, whatever the request, it calls
    [index_documents] once and, when that returns, answers 200 with status
    "success". *)
Theorem reindex_runs_once req rw :
  (Rag.rag_analyzer rw = None →
     Rag.rag_serve Rag.ReIndex req rw =
       (error_response "RAG system not initialized." 503, rw)) ∧
  (∀ r r1, Rag.rag_analyzer rw = Some r →
     Rag.index_documents r = (Ret (), r1) →
     ∃ d : gmap string json,
       Rag.rag_serve Rag.ReIndex req rw =
         (jsonify (JObj d),
          Rag.RagWorld (Some r1) (Rag.rag_calls rw ++ [Rag.RIndex]) (Rag.environ rw)) ∧
       d !! "status" = Some (JStr "success")) ∧
  (∀ req', Rag.rag_serve Rag.ReIndex req' rw = Rag.rag_serve Rag.ReIndex req rw).
Proof.
  unfold Rag.rag_serve, Rag.rag_view, Rag.re_index_documents, Rag.bind,
    Rag.ret, Rag.invoke.
  split_and!.
  - by intros ->.
  - intros r r1 Hr Hi. rewrite Hr. simpl. rewrite ?Hr, Hi. by eexists.
  - done.
Qed.

(** X17. Without a [GEMINI_API_KEY] in the environment, or with an empty
    one, the RAG initialization returns [False] and does nothing else: no
    analyzer is constructed, the global and the environment stay as they
    were. *)
Theorem initialize_rag_without_key rw :
  Rag.environ rw !! "GEMINI_API_KEY" = None ∨
  Rag.environ rw !! "GEMINI_API_KEY" = Some "" →
  Rag.initialize_rag_analyzer rw = (Ret false, rw).
Proof.
  unfold Rag.initialize_rag_analyzer, Rag.ret. by intros [-> | ->].
Qed.


End rag_facts.

(** ** The 404 handler *)

Section not_found_facts.
Import Errors.

Lemma insert_sorted_perm x l : Permutation (insert_sorted x l) (x :: l).
Proof.
  induction l as [|y l IH]; simpl; [done|].
  destruct (String.leb x y); [done|]. rewrite IH. apply perm_swap.
Qed.

Lemma sorted_perm l : Permutation (sorted l) l.
Proof.
  induction l as [|x l IH]; simpl; [done|].
  unfold sorted in *. simpl. rewrite insert_sorted_perm. by constructor.
Qed.

Lemma insert_sorted_Sorted x l : Sorted str_le l → Sorted str_le (insert_sorted x l).
Proof.
  induction 1 as [|y l Hs IH Hhd]; simpl; [by repeat constructor|].
  destruct (String.leb x y) eqn:Hxy.
  - constructor; [by constructor|]. by constructor.
  - constructor; [done|].
    assert (str_le y x) as Hyx.
    { destruct (String.leb_total x y) as [H|H]; [congruence|done]. }
    destruct l as [|z l]; simpl in *; [by constructor|].
    destruct (String.leb x z); constructor; try done. by inversion Hhd.
Qed.

Lemma sorted_Sorted l : Sorted str_le (sorted l).
Proof.
  induction l as [|x l IH]; simpl; [constructor|].
  by apply insert_sorted_Sorted.
Qed.

(** X19. The 404 handler answers with status 404 and a list of paths that
    is in ascending order, has no path twice, and holds exactly the paths
    of the rules whose endpoint name does not contain "static"; for the
    rules of this application these are the nine routes of [app.py]. *)
Theorem not_found_lists_routes url_map :
  status (not_found url_map) = 404 ∧
  ∃ (d : gmap string json) paths,
    body (not_found url_map) = Some (JObj d) ∧
    d !! "error" = Some (JStr "Endpoint not found") ∧
    d !! "available_endpoints" = Some (JList (JStr <$> paths)) ∧
    Sorted str_le paths ∧
    NoDup paths ∧
    (∀ p, p ∈ paths ↔
          ∃ r, r ∈ url_map ∧ rule_path r = p ∧
               String.index 0 "static" (rule_endpoint r) = None) ∧
    (url_map = app_url_map →
     paths = ["/ask"; "/health"; "/pass-simulation"; "/pass-strategy"; "/query";
              "/re-index"; "/stats"; "/topics"; "/topics-for-course"]).
Proof.
  split; [done|]. eexists _, _. split; [reflexivity|].
  split_and!; try done.
  - apply sorted_Sorted.
  - rewrite sorted_perm. apply NoDup_remove_dups.
  - intros p. rewrite sorted_perm, elem_of_remove_dups.
    unfold available_endpoints. rewrite list_elem_of_fmap.
    split.
    + intros (r & -> & Hr). apply list_elem_of_filter in Hr as [Hc Hr].
      exists r. split_and!; try done. unfold contains in Hc.
      by destruct (String.index 0 "static" (rule_endpoint r)).
    + intros (r & Hr & <- & Hc). exists r. split; [done|].
      apply list_elem_of_filter. split; [|done]. unfold contains. by rewrite Hc.
  - by intros ->.
Qed.

End not_found_facts.

(** * Properties of the Planner *)

Section planner_facts.
Import Planner.
Local Open Scope Q_scope.
Variable weight : TopicRecord → Q.

Lemma average_marks_pos r : 0 < average_marks r.
Proof. unfold average_marks, Qlt. simpl. lia. Qed.

Lemma sum_average_nonneg rs : 0 <= sum_average rs.
Proof.
  induction rs as [|r rs IH]; simpl; [lra|].
  pose proof (average_marks_pos r). lra.
Qed.

Lemma sum_average_perm rs rs' : Permutation rs rs' → sum_average rs == sum_average rs'.
Proof.
  induction 1 as [|r rs rs' _ IH|r r' rs|rs1 rs2 rs3 _ IH1 _ IH2]; simpl; lra.
Qed.

Lemma insert_ranked_perm r rs : Permutation (insert_ranked weight r rs) (r :: rs).
Proof.
  induction rs as [|r' rs IH]; simpl; [done|].
  destruct (Qle_bool (weight r') (weight r)); [done|].
  rewrite IH. apply perm_swap.
Qed.

Lemma rank_perm rs : Permutation (rank weight rs) rs.
Proof.
  induction rs as [|r rs IH]; simpl; [done|].
  unfold rank in IH |- *. simpl. rewrite insert_ranked_perm. by constructor.
Qed.

(** The total the accumulation stops at reaches the target exactly when
    the whole list would: averages are positive, so a running total that has
    met the target stays above it. *)
Lemma accumulate_reaches ranked target running :
  target <= (accumulate ranked target running).2 ↔
  target <= running + sum_average ranked.
Proof.
  revert running. induction ranked as [|r rest IH]; intros running; simpl.
  - split; lra.
  - pose proof (average_marks_pos r). pose proof (sum_average_nonneg rest).
    destruct (Qle_bool target running) eqn:Hle; simpl.
    + apply Qle_bool_iff in Hle. split; lra.
    + specialize (IH (running + average_marks r)).
      destruct (accumulate rest target (running + average_marks r)) as [chosen total].
      simpl in *. rewrite IH. split; lra.
Qed.

Lemma plan_feasible corpus studied target :
  feasible (plan weight corpus studied target) = true ↔
  target <= sum_average (pool corpus studied).
Proof.
  unfold plan.
  pose proof (accumulate_reaches (rank weight (pool corpus studied)) target 0) as H.
  destruct (accumulate _ _ _) as [chosen total]. simpl in *.
  rewrite Qle_bool_iff, H, (sum_average_perm _ _ (rank_perm _)). split; lra.
Qed.

(** The topics the Planner chooses from are the records of the topics that
    are not among the studied ones. *)
Lemma pool_not_studied corpus studied :
  pool corpus studied = filter (λ t, topic t ∉ studied) (topic_records corpus).
Proof.
  unfold pool. apply list_filter_iff. intros t. unfold is_studied.
  rewrite <- not_true_iff_false, existsb_exists. split.
  - intros Hn Hin. apply Hn. exists (topic t). split; [by apply list_elem_of_In|].
    apply String.eqb_refl.
  - intros Hn (x & Hin & Heq). apply String.eqb_eq in Heq. subst x.
    by apply Hn, list_elem_of_In.
Qed.

(** The accumulation takes its topics from the list it is given, and its
    total is the running total it starts from plus their averages. *)
Lemma accumulate_chosen ranked target running :
  (accumulate ranked target running).1 ⊆ ranked ∧
  (accumulate ranked target running).2 ==
    running + sum_average (accumulate ranked target running).1.
Proof.
  revert running. induction ranked as [|r rest IH]; intros running; simpl.
  - split; [done|lra].
  - destruct (Qle_bool target running); simpl.
    + split; [apply list_subseteq_nil|lra].
    + specialize (IH (running + average_marks r)).
      destruct (accumulate rest target (running + average_marks r)) as [chosen total].
      simpl in *. destruct IH as [Hsub Htot]. split; [|lra].
      intros x [-> | Hx]%elem_of_cons; [left|right; by apply Hsub].
Qed.

(** C3.  For every corpus, set of studied topics, target and ranking
    weight, the Planner's feasibility flag is false if and only if the sum
    of the average marks of all the topics that are not studied is less than
    the target, and at equality with the target the flag is true.  The
    studied topics contribute nothing in the Planner: the topics it
    recommends are all among those not studied, and the projected marks are
    the sum of their averages. *)
Theorem feasible_iff_pool_reaches corpus studied target :
  let result := plan weight corpus studied target in
  let others := filter (λ t, topic t ∉ studied) (topic_records corpus) in
  (feasible result = false ↔ sum_average others < target) ∧
  (sum_average others == target → feasible result = true) ∧
  ∃ chosen,
    recommended result = topic <$> chosen ∧
    chosen ⊆ others ∧
    projected_marks result == sum_average chosen.
Proof.
  intros result others. subst result others.
  rewrite <- pool_not_studied. split_and!.
  - rewrite <- not_true_iff_false, plan_feasible. split.
    + intros Hn. apply Qnot_le_lt, Hn.
    + intros Hlt Hle. lra.
  - intros Heq. apply plan_feasible. lra.
  - unfold plan.
    pose proof (accumulate_chosen (rank weight (pool corpus studied)) target 0)
      as [Hsub Htot].
    destruct (accumulate _ _ _) as [chosen total]. simpl in *.
    exists chosen. split_and!; [done| |lra].
    intros x Hx. apply Hsub in Hx. by rewrite rank_perm in Hx.
Qed.

End planner_facts.

Section sample_runs.
#[local] Existing Instance Sample.exam_analyzer_class.
#[local] Existing Instance Ascii_text.builtins.

Lemma not_ready_fails_fast_witness :
  let req := Request [] (Ret (JObj {[ "query" := JStr "heaps" ]})) in
  analytical Query = true ∧
  serve (env:=Sample.env_ok) Query req Sample.fresh_world = (not_ready, Sample.fresh_world).
Proof.
  intros req. split; [reflexivity|].
  apply (not_ready_fails_fast (env:=Sample.env_ok) Query req Sample.fresh_world).
  - reflexivity.
  - left. reflexivity.
Defined.

Lemma initialize_never_raises_witness :
  (initialize_exam_analyzer (env:=Sample.env false (Ret JNull)) Sample.fresh_world).1
  = Ret false.
Proof.
  apply (initialize_never_raises (env:=Sample.env false (Ret JNull)) Sample.fresh_world).
  reflexivity.
Defined.

Lemma total_matches_is_length_witness :
  let req := Sample.post [("query", JStr "heaps"); ("top_k", JInt 2)] in
  status (serve (env:=Sample.env_ok) Query req Sample.ready_world).1 = 200 ∧
  ∃ d rs, body (serve (env:=Sample.env_ok) Query req Sample.ready_world).1 = Some (JObj d) ∧
          d !! "results" = Some (JList rs) ∧
          d !! "total_matches" = Some (JInt (Z.of_nat (length rs))).
Proof.
  intros req. split; [reflexivity|].
  apply (total_matches_is_length (env:=Sample.env_ok) req Sample.ready_world).
  reflexivity.
Defined.

Lemma empty_query_rejected_witness :
  let req := Sample.post [("query", JStr "   "); ("top_k", JInt 5)] in
  is_ready Sample.ready_world = true ∧
  status (serve (env:=Sample.env_ok) Query req Sample.ready_world).1 = 400.
Proof.
  intros req. split; [reflexivity|].
  apply (empty_query_rejected (env:=Sample.env_ok) req Sample.ready_world
           (JObj (list_to_map [("query", JStr "   "); ("top_k", JInt 5)])));
    [reflexivity|reflexivity|].
  right. eexists. split; [reflexivity|]. right. exists (JStr "   ").
  split; [reflexivity|]. right. exists "   ". split; reflexivity.
Defined.

(** C4 as stated fails: a request without [query] that arrives before the
    analyzer is ready is answered 503, not 400. *)
Lemma empty_query_not_ready_counterexample :
  let req := Sample.post [("top_k", JInt 5)] in
  status (serve (env:=Sample.env_ok) Query req Sample.fresh_world).1 = 503 ∧
  status (serve (env:=Sample.env_ok) Query req Sample.fresh_world).1 ≠ 400.
Proof. split; [reflexivity|]. vm_compute. discriminate. Qed.

Lemma top_k_passed_unchecked_witness :
  let req := Sample.post [("query", JStr "heaps"); ("top_k", JInt (-1))] in
  ∃ rest, new_calls Sample.ready_world
            (serve (env:=Sample.env_ok) Query req Sample.ready_world).2
          = CSearch "heaps" (JFloat 0.5) (JInt (-1)) :: rest.
Proof.
  intros req.
  refine (proj1 (top_k_passed_unchecked (env:=Sample.env_ok) req Sample.ready_world
            (Sample.Analyzer true [JStr "Q1"; JStr "Q2"; JStr "Q3"])
            (list_to_map [("query", JStr "heaps"); ("top_k", JInt (-1))])
            "heaps" (JInt (-1)) _ _ _ _ _ _ _));
    try reflexivity; vm_compute; discriminate.
Defined.

(** C5 as stated fails: with [top_k] 0 the search is called with that
    value and the answer is 200 with no results, not 400. *)
Lemma top_k_zero_counterexample :
  let req := Sample.post [("query", JStr "heaps"); ("top_k", JInt 0)] in
  let out := serve (env:=Sample.env_ok) Query req Sample.ready_world in
  status out.1 = 200 ∧ status out.1 ≠ 400 ∧
  calls out.2 = [CSearch "heaps" (JFloat 0.5) (JInt 0);
                 CModuleDistribution []; CMarksDistribution []].
Proof. split_and!; [reflexivity|vm_compute; discriminate|reflexivity]. Qed.

Lemma pass_target_marks_witness :
  let req := Sample.post [("internal_marks", JInt 40); ("studied_topics", JList [JStr "Paging"])] in
  let c := CPassStrategy (JList [JStr "Paging"]) (JInt 40) in
  is_pass PassStrategy = true ∧
  new_calls Sample.ready_world
    (serve (env:=Sample.env_ok) PassStrategy req Sample.ready_world).2 = [c].
Proof.
  intros req c. split; [reflexivity|].
  destruct (pass_target_marks (env:=Sample.env_ok) PassStrategy req Sample.ready_world)
    as (Hrun & _); [reflexivity|].
  destruct (Hrun (Sample.Analyzer true [JStr "Q1"; JStr "Q2"; JStr "Q3"])
              (list_to_map [("internal_marks", JInt 40);
                            ("studied_topics", JList [JStr "Paging"])])
              (JInt 40)) as (Hcalls & _);
    [first [reflexivity | vm_compute; discriminate]..|exact Hcalls].
Defined.

(** C2 as stated fails: a request with the empty object, and a request sent
    before the analyzer is ready, pass no target to the analyzer and get an
    answer without [inputs]. *)
Lemma pass_echo_counterexample :
  let empty := serve (env:=Sample.env_ok) PassStrategy (Sample.post []) Sample.ready_world in
  let early := serve (env:=Sample.env_ok) PassSimulation
                 (Sample.post [("internal_marks", JInt 40)]) Sample.fresh_world in
  empty.1 = error_response "Invalid JSON payload" 400 ∧ calls empty.2 = [] ∧
  early.1 = error_response "Exam analyzer not ready." 503 ∧ calls early.2 = [].
Proof. split_and!; reflexivity. Qed.

Lemma defaults_for_omitted_witness :
  is_ready Sample.ready_world = true ∧
  new_calls Sample.ready_world
    (serve (env:=Sample.env_ok) Topics (Sample.get []) Sample.ready_world).2
  = [CTopicAnalysis 2].
Proof.
  split; [reflexivity|].
  apply (defaults_for_omitted (env:=Sample.env_ok) (Sample.get []) Sample.ready_world);
    reflexivity.
Defined.

(** C10 as stated fails: the request that omits every input of a pass
    endpoint is answered 400 with no default substituted and no call, and
    before the analyzer is ready /topics without [min_frequency] is answered
    503 with no call. *)
Lemma defaults_counterexample :
  let empty := serve (env:=Sample.env_ok) PassSimulation (Sample.post []) Sample.ready_world in
  let early := serve (env:=Sample.env_ok) Topics (Sample.get []) Sample.fresh_world in
  status empty.1 = 400 ∧ calls empty.2 = [] ∧
  status early.1 = 503 ∧ calls early.2 = [].
Proof. split_and!; reflexivity. Qed.

Lemma malformed_number_is_500_witness :
  let req := Sample.post [("internal_marks", JStr "forty")] in
  is_ready Sample.ready_world = true ∧
  serve (env:=Sample.env_ok) PassStrategy req Sample.ready_world
  = (internal_error, Sample.ready_world).
Proof.
  intros req. split; [reflexivity|].
  destruct (malformed_number_is_500 (env:=Sample.env_ok) req Sample.ready_world)
    as (_ & _ & Hpass); [reflexivity|].
  apply (Hpass PassStrategy (list_to_map [("internal_marks", JStr "forty")])
           "internal_marks" (JStr "forty")); try reflexivity.
  left. reflexivity.
Defined.

(** C6 as stated fails: a [min_frequency] that is not a number, and an
    [internal_marks] that is a string, are answered 500, not 400. *)
Lemma malformed_number_counterexample :
  status (serve (env:=Sample.env_ok) Topics
            (Sample.get [("min_frequency", "abc")]) Sample.ready_world).1 = 500 ∧
  status (serve (env:=Sample.env_ok) PassStrategy
            (Sample.post [("internal_marks", JStr "forty")]) Sample.ready_world).1 = 500 ∧
  status (serve (env:=Sample.env_ok) PassSimulation
            (Sample.post [("overall_pass_threshold", JNull)]) Sample.ready_world).1 = 500.
Proof. split_and!; reflexivity. Qed.

Lemma topics_for_course_lookup_witness :
  let req := Sample.get [("code", "cst206")] in
  serve (env:=Sample.env_ok) TopicsForCourse req Sample.ready_world
  = (jsonify (JObj (list_to_map
       [("courseCode", JStr "CST206");
        ("topics", JList [JStr "Scheduling"; JStr "Paging"])])), Sample.ready_world).
Proof.
  intros req.
  refine (proj1 (proj2 (proj2 (topics_for_course_lookup (env:=Sample.env_ok) req
            Sample.ready_world) "cst206" eq_refl _) _ _ eq_refl eq_refl)
          [JObj (list_to_map [("courseCode", JStr "CST204");
                              ("topics", JList [JStr "Normalization"])])]
          (list_to_map [("courseCode", JStr "CST206");
                        ("topics", JList [JStr "Scheduling"; JStr "Paging"])])
          [JObj (list_to_map [("courseCode", JStr "cst206")])]
          "CST206" eq_refl _ eq_refl eq_refl).
  - discriminate.
  - constructor; [|constructor]. exists "CST204". split; [reflexivity|].
    vm_compute. discriminate.
Defined.

(** C7 as stated fails: with a [code] given and [exams_info.json] missing,
    the answer is 500, neither a course nor 404. *)
Lemma topics_for_course_counterexample :
  let req := Sample.get [("code", "CST206")] in
  status (serve (env:=Sample.env_no_table) TopicsForCourse req Sample.ready_world).1 = 500 ∧
  status (serve (env:=Sample.env_no_table) TopicsForCourse req Sample.ready_world).1 ≠ 404 ∧
  status (serve (env:=Sample.env_no_table) TopicsForCourse req Sample.ready_world).1 ≠ 200.
Proof. split_and!; [reflexivity|vm_compute; discriminate..]. Qed.

(** The second scenario of section 8: "Sorting" studied, target 20. *)
Example scenario_plan :
  let r := Planner.plan Planner.average_marks Planner.scenario_corpus ["Sorting"] 20 in
  Planner.recommended r = ["Graphs"; "Arrays"] ∧
  (Planner.projected_marks r == 25)%Q ∧
  Planner.feasible r = true.
Proof. split_and!; reflexivity. Qed.

Lemma feasible_iff_pool_reaches_witness :
  Planner.feasible
    (Planner.plan Planner.average_marks Planner.scenario_corpus ["Sorting"] 25) = true.
Proof.
  destruct (feasible_iff_pool_reaches Planner.average_marks Planner.scenario_corpus
              ["Sorting"] 25) as (_ & Heq & _).
  apply Heq. reflexivity.
Defined.

End sample_runs.

Section more_sample_runs.
#[local] Existing Instance Sample.exam_analyzer_class.
#[local] Existing Instance Ascii_text.builtins.
#[local] Existing Instance Sample_rag.rag_class.
#[local] Existing Instance Sample_rag.config.

Lemma initialize_replaces_analyzer_witness :
  is_ready Sample.ready_world = true ∧
  is_ready (initialize_exam_analyzer (env:=Sample.env false (Ret JNull))
              Sample.ready_world).2 = false.
Proof.
  split; [reflexivity|].
  destruct (initialize_replaces_analyzer (env:=Sample.env false (Ret JNull))
              Sample.ready_world) as [Hnew _].
  destruct (Hnew (Sample.Analyzer false [])) as [_ Hready];
    [reflexivity|reflexivity|].
  apply Hready. reflexivity.
Defined.

Lemma pass_rejects_falsy_payload_witness :
  serve (env:=Sample.env_ok) PassSimulation (Sample.post []) Sample.ready_world
  = (error_response "Invalid JSON payload" 400, Sample.ready_world).
Proof.
  apply (pass_rejects_falsy_payload (env:=Sample.env_ok) PassSimulation
           (Sample.post []) Sample.ready_world (JObj ∅)); reflexivity.
Defined.

Lemma non_object_payload_is_500_witness :
  let req := Request [] (Ret (JList [JInt 1])) in
  serve (env:=Sample.env_ok) Query req Sample.ready_world
  = (internal_error, Sample.ready_world).
Proof.
  intros req.
  apply (non_object_payload_is_500 (env:=Sample.env_ok) Query req
           Sample.ready_world (JList [JInt 1]));
    [by left|reflexivity|reflexivity|reflexivity|discriminate].
Defined.

Lemma non_string_query_is_500_witness :
  let req := Sample.post [("query", JInt 5)] in
  serve (env:=Sample.env_ok) Query req Sample.ready_world
  = (internal_error, Sample.ready_world).
Proof.
  intros req.
  apply (non_string_query_is_500 (env:=Sample.env_ok) req Sample.ready_world
           (list_to_map [("query", JInt 5)]) (JInt 5));
    [reflexivity|reflexivity|reflexivity|reflexivity|discriminate].
Defined.

Lemma topics_answer_shape_witness :
  let req := Sample.get [("min_frequency", " -3 ")] in
  new_calls Sample.ready_world
    (serve (env:=Sample.env_ok) Topics req Sample.ready_world).2 = [CTopicAnalysis (-3)].
Proof.
  intros req.
  destruct (topics_answer_shape (env:=Sample.env_ok) req Sample.ready_world)
    as (n & l & d & params & Hn & Hcalls & _); [reflexivity|].
  vm_compute in Hn. injection Hn as <-. exact Hcalls.
Defined.

Lemma stats_returns_get_stats_witness :
  (serve (env:=Sample.env_ok) Stats (Sample.get []) Sample.ready_world).1
  = jsonify (JObj {[ "total_questions" := JInt 3 ]}).
Proof.
  rewrite (stats_returns_get_stats (env:=Sample.env_ok) (Sample.get [])
             Sample.ready_world
             (Sample.Analyzer true [JStr "Q1"; JStr "Q2"; JStr "Q3"])
             (JObj {[ "total_questions" := JInt 3 ]})
             (Sample.Analyzer true [JStr "Q1"; JStr "Q2"; JStr "Q3"]));
    reflexivity.
Defined.

Lemma search_failure_is_500_witness :
  let req := Sample.post [("query", JStr "heaps"); ("top_k", JStr "5")] in
  calls (serve (env:=Sample.env_ok) Query req Sample.ready_world).2
  = [CSearch "heaps" (JFloat 0.5) (JStr "5")] ∧
  status (serve (env:=Sample.env_ok) Query req Sample.ready_world).1 = 500.
Proof.
  intros req.
  rewrite (search_failure_is_500 (env:=Sample.env_ok) req Sample.ready_world
             (Sample.Analyzer true [JStr "Q1"; JStr "Q2"; JStr "Q3"])
             (list_to_map [("query", JStr "heaps"); ("top_k", JStr "5")])
             "heaps" TypeError "slice indices must be integers"
             (Sample.Analyzer true [JStr "Q1"; JStr "Q2"; JStr "Q3"]));
    try reflexivity; try (vm_compute; discriminate).
  by split.
Defined.

Lemma malformed_entry_is_500_witness :
  let table := JObj {[ "courses" := JList
                 [ JObj (list_to_map [("courseCode", JInt 206)]);
                   JObj (list_to_map [("courseCode", JStr "CST206")]) ] ]} in
  status (serve (env:=Sample.env true (Ret table)) TopicsForCourse
            (Sample.get [("code", "CST206")]) Sample.ready_world).1 = 500.
Proof.
  intros table.
  apply (malformed_entry_is_500 (env:=Sample.env true (Ret table))
           (Sample.get [("code", "CST206")]) Sample.ready_world "CST206"
           {[ "courses" := JList
                [ JObj (list_to_map [("courseCode", JInt 206)]);
                  JObj (list_to_map [("courseCode", JStr "CST206")]) ] ]}
           [] (JObj (list_to_map [("courseCode", JInt 206)]))
           [JObj (list_to_map [("courseCode", JStr "CST206")])]);
    try reflexivity; [discriminate|constructor].
Defined.

Lemma reindex_gate_is_weaker_witness :
  status (Rag.rag_serve Rag.Ask (Sample.post [("query", JStr "What is a heap?")])
            Sample_rag.chainless_world).1 = 503 ∧
  Rag.rag_calls (Rag.rag_serve Rag.ReIndex (Sample.post [])
                   Sample_rag.chainless_world).2 = [Rag.RIndex].
Proof.
  destruct (reindex_gate_is_weaker Sample.fresh_world
              Sample_rag.chainless_world
              (Sample.post [("query", JStr "What is a heap?")])
              (Sample_rag.Analyzer false 0))
    as (_ & Hask & _ & _); [reflexivity|reflexivity|].
  split; [exact Hask|reflexivity].
Defined.

Lemma ask_rejects_empty_query_witness :
  status (Rag.rag_serve Rag.Ask (Sample.post [("query", JStr "  ")])
            Sample_rag.ready_world).1 = 400.
Proof.
  rewrite (ask_rejects_empty_query (Sample.post [("query", JStr "  ")])
             Sample_rag.ready_world (JObj (list_to_map [("query", JStr "  ")])));
    [reflexivity|reflexivity|reflexivity|].
  right. eexists. split; [reflexivity|]. right. exists (JStr "  ").
  split; [reflexivity|]. right. exists "  ". split; reflexivity.
Defined.

Lemma ask_passes_query_as_given_witness :
  Rag.rag_calls (Rag.rag_serve Rag.Ask (Sample.post [("query", JStr " heaps? ")])
                   Sample_rag.ready_world).2 = [Rag.RAsk " heaps? "].
Proof.
  rewrite (ask_passes_query_as_given (Sample.post [("query", JStr " heaps? ")])
             Sample_rag.ready_world (Sample_rag.Analyzer true 2)
             (list_to_map [("query", JStr " heaps? ")]) " heaps? "
             (JStr "See chapter 3.") (Sample_rag.Analyzer true 2));
    try reflexivity; vm_compute; discriminate.
Defined.

Lemma initialize_rag_without_key_witness :
  Rag.initialize_rag_analyzer Sample_rag.fresh_world = (Ret false, Sample_rag.fresh_world).
Proof.
  apply (initialize_rag_without_key Sample_rag.fresh_world). left. reflexivity.
Defined.


End more_sample_runs.
